(** * RiskGuard 360 — moteur de scoring (scoring_engine/scoring.py)

    A shallow embedding of the scoring engine and of the loan simulator,
    followed by the properties of the engine that the specification states.

    Numeric model.  Python [float] values are modelled by exact rationals
    ([Q]); Python [int] values by [Z].  Arithmetic, comparisons and
    [round] are therefore exact: rounding error, overflow, infinities and
    NaN of IEEE-754 doubles are outside the model.  [round(x, n)] is
    round-half-to-even at [n] decimals, [str.format] with [.kf] likewise.
    Equality of two floats is [Qeq] ([==]); when the code returns a literal
    the result is stated with Leibniz equality.

    Strings are byte strings holding the UTF-8 encoding of the source
    literals. *)

From Stdlib Require Import QArith Qround Qabs Lqa Lia ZArith Bool.
From Stdlib Require Import String Ascii List DecimalString.
Import ListNotations.

Local Open Scope Q_scope.

(* ------------------------------------------------------------------ *)
(** ** Python numerics *)

Module Py.

Definition leb (x y : Q) : bool := Qle_bool x y.
Definition ltb (x y : Q) : bool := negb (Qle_bool y x).
Definition eqb (x y : Q) : bool := Qeq_bool x y.

(** [max(a, b)] and [min(a, b)] keep the first argument on a tie. *)
Definition max (a b : Q) : Q := if ltb a b then b else a.
Definition min (a b : Q) : Q := if ltb b a then b else a.

(** Nearest integer, ties to the even one. *)
Definition round_half_even (x : Q) : Z :=
  let f := Qfloor x in
  match ((x - inject_Z f) ?= (1 # 2))%Q with
  | Lt => f
  | Gt => (f + 1)%Z
  | Eq => if Z.even f then f else (f + 1)%Z
  end.

Definition pow10 (n : nat) : Z := (10 ^ Z.of_nat n)%Z.

(** [round(x, ndigits)] *)
Definition round (x : Q) (ndigits : nat) : Q :=
  inject_Z (round_half_even (x * inject_Z (pow10 ndigits)))
  / inject_Z (pow10 ndigits).

(** *** String formatting *)

Definition str_int (z : Z) : string := NilZero.string_of_int (Z.to_int z).

Definition join (parts : list string) : string :=
  String.concat EmptyString parts.

(** A comma before every group of three digits, counted from the right
    (the [,] option of the format mini-language). *)
Fixpoint grouper (rev_digits : list ascii) (n : nat) : list ascii :=
  match rev_digits with
  | [] => []
  | c :: rest =>
      match n with
      | O => ","%char :: c :: grouper rest 2
      | S n' => c :: grouper rest n'
      end
  end.

Definition thousands (digits : string) : string :=
  string_of_list_ascii (rev (grouper (rev (list_ascii_of_string digits)) 3)).

Fixpoint zeros (n : nat) : string :=
  match n with
  | O => EmptyString
  | S n' => String "0"%char (zeros n')
  end.

Definition pad_left (width : nat) (s : string) : string :=
  (zeros (width - String.length s)%nat ++ s)%string.

(** [format(x, ".{nd}f")], or [",.{nd}f"] when [sep] is set. *)
Definition format_f (sep : bool) (nd : nat) (x : Q) : string :=
  let scaled := round_half_even (Qabs x * inject_Z (pow10 nd)) in
  let entier := str_int (scaled / pow10 nd)%Z in
  let entier := if sep then thousands entier else entier in
  let signe := if ltb x 0 then "-"%string else EmptyString in
  let decimales :=
    match nd with
    | O => EmptyString
    | _ => ("." ++ pad_left nd (str_int (scaled mod pow10 nd)%Z))%string
    end in
  (signe ++ entier ++ decimales)%string.

(** [dict.get(key)] on a dictionary kept as its list of items. *)
Fixpoint dict_get {V : Type} (d : list (string * V)) (key : string) : option V :=
  match d with
  | [] => None
  | (k, v) :: rest => if String.eqb k key then Some v else dict_get rest key
  end.

Definition dict_get_default {V : Type} (d : list (string * V)) (key : string) (dflt : V) : V :=
  match dict_get d key with
  | Some v => v
  | None => dflt
  end.

End Py.

Declare Scope py_scope.
Delimit Scope py_scope with py.
Infix "<=?" := Py.leb (at level 70, no associativity) : py_scope.
Infix "<?" := Py.ltb (at level 70, no associativity) : py_scope.
Infix "=?" := Py.eqb (at level 70, no associativity) : py_scope.
Local Open Scope py_scope.

(* ------------------------------------------------------------------ *)
(** ** Constantes et pondérations *)

Inductive RiskLevel : Set :=
| TRES_FAIBLE
| FAIBLE
| MODERE
| ELEVE
| TRES_ELEVE
| CRITIQUE.

Definition RiskLevel_value (n : RiskLevel) : string :=
  match n with
  | TRES_FAIBLE => "Très faible"
  | FAIBLE => "Faible"
  | MODERE => "Modéré"
  | ELEVE => "Élevé"
  | TRES_ELEVE => "Très élevé"
  | CRITIQUE => "Critique"
  end.

Definition POIDS : list (string * Q) :=
  [ ("ratio_endettement"%string, 0.35);
    ("historique_paiement"%string, 0.30);
    ("stabilite_pro"%string, 0.20);
    ("coherence_montant"%string, 0.15) ].

(** [POIDS[cle]]; the four keys the engine uses are present (lemma
    [POIDS_keys]), so the [KeyError] case is never reached and reads 0 here. *)
Definition poids (cle : string) : Q := Py.dict_get_default POIDS cle 0.

(** The dictionary is iterated in insertion order. *)
Definition SEUILS_RISQUE : list (RiskLevel * (Z * Z)) :=
  [ (TRES_FAIBLE, (80, 100)%Z);
    (FAIBLE, (65, 80)%Z);
    (MODERE, (50, 65)%Z);
    (ELEVE, (35, 50)%Z);
    (TRES_ELEVE, (20, 35)%Z);
    (CRITIQUE, (0, 20)%Z) ].

Definition SEUILS_MONTANT_PROFIL : list (string * Z) :=
  [ ("etudiant"%string, 500000%Z);
    ("salarie_junior"%string, 5000000%Z);
    ("salarie_confirme"%string, 20000000%Z);
    ("salarie_senior"%string, 50000000%Z);
    ("entrepreneur"%string, 30000000%Z);
    ("retraite"%string, 10000000%Z);
    ("entreprise"%string, 200000000%Z) ].

(* ------------------------------------------------------------------ *)
(** ** Data classes *)

Record ProfilClient : Type := {
  nom : string;
  prenom : string;
  type_client : string;
  profession : string;
  revenu_mensuel : Q;
  charges_mensuelles : Q;
  dettes_existantes : Q;
  anciennete_emploi : Q;
  incidents_paiement_12m : Z;
  montant_demande : Q;
  duree_pret_mois : Z;
  age : Z;
  apport_personnel : Q;
  numero_cni : string
}.

(** The fields of [details] that are computed ([poids_appliques] is [POIDS]
    and [taux_annuel] the constant "15%"). *)
Record Details : Type := {
  mensualite_estimee : Q;
  capacite_remboursement : Q
}.

(** [explication] and [facteurs_importants] come from [generer_explication],
    which reads the scores and writes none of the other fields; it is not
    part of this development. *)
Record ResultatScoring : Type := {
  score_global : Q;
  niveau_risque : RiskLevel;
  score_endettement : Q;
  score_historique : Q;
  score_stabilite : Q;
  score_coherence : Q;
  score_fraude : Q;
  ratio_endettement : Q;
  alertes : list string;
  recommandation : string;
  alerte_fraude : bool;
  details : Details
}.

(* ------------------------------------------------------------------ *)
(** ** Fonctions de scoring unitaires *)

(** The annuity expression that the engine writes out three times:
    [montant * (t * (1 + t) ** n) / ((1 + t) ** n - 1)]. *)
Definition annuite (montant taux : Q) (n : Z) : Q :=
  montant * (taux * (1 + taux) ^ n) / ((1 + taux) ^ n - 1).

(** The five branches of the debt-ratio scale, in source order. *)
Definition bande_1 (ratio : Q) : Q := 100.
Definition bande_2 (ratio : Q) : Q := 100 - ((ratio - 0.20) / 0.13) * 30.
Definition bande_3 (ratio : Q) : Q := 70 - ((ratio - 0.33) / 0.12) * 30.
Definition bande_4 (ratio : Q) : Q := 40 - ((ratio - 0.45) / 0.15) * 25.
Definition bande_5 (ratio : Q) : Q := Py.max 0 (15 - ((ratio - 0.60) / 0.40) * 15).

(** The [if]/[elif] chain of [calculer_score_endettement] on [ratio]. *)
Definition bareme_endettement (ratio : Q) : Q :=
  if ratio <=? 0.20 then bande_1 ratio
  else if ratio <=? 0.33 then bande_2 ratio
  else if ratio <=? 0.45 then bande_3 ratio
  else if ratio <=? 0.60 then bande_4 ratio
  else bande_5 ratio.

(** The installment and the unrounded ratio on the [revenu > 0] path. *)
Definition mensualite_endettement (montant_demande : Q) (duree_mois : Z) : Q :=
  let taux_mensuel := 0.15 / 12 in
  if (0 <? taux_mensuel) && (0 <? duree_mois)%Z
  then annuite montant_demande taux_mensuel duree_mois
  else montant_demande / inject_Z (Z.max duree_mois 1).

Definition ratio_brut (revenu charges dettes montant_demande : Q) (duree_mois : Z) : Q :=
  (charges + dettes + mensualite_endettement montant_demande duree_mois) / revenu.

Definition calculer_score_endettement
    (revenu charges dettes montant_demande : Q) (duree_mois : Z) : Q * Q :=
  if revenu <=? 0 then (0, 1)
  else
    let ratio := ratio_brut revenu charges dettes montant_demande duree_mois in
    let score := bareme_endettement ratio in
    (Py.round score 2, Py.round ratio 4).

Definition calculer_score_historique (incidents : Z) : Q :=
  if (incidents =? 0)%Z then 100
  else if (incidents =? 1)%Z then 75
  else if (incidents =? 2)%Z then 50
  else if (incidents =? 3)%Z then 25
  else Py.max 0 (10 - inject_Z (incidents - 4) * 2.5).

Definition calculer_score_stabilite (anciennete : Q) (age : Z) : Q :=
  let score :=
    if 10 <=? anciennete then 100
    else if 5 <=? anciennete then 85 + ((anciennete - 5) / 5) * 15
    else if 2 <=? anciennete then 65 + ((anciennete - 2) / 3) * 20
    else if 1 <=? anciennete then 45 + (anciennete - 1) * 20
    else 20 + anciennete * 25 in
  let score :=
    if (30 <=? age)%Z && (age <=? 55)%Z then Py.min 100 (score + 5)
    else if (age <? 23)%Z || (65 <? age)%Z then Py.max 0 (score - 10)
    else score in
  Py.round (Py.min 100 (Py.max 0 score)) 2.

(** *** Cohérence

    The scorer threads [(score, alertes)] through four blocks; each block is
    a transformer of that pair. *)

Definition Etat : Type := (Q * list string)%type.

Definition seuil_profil (profil : ProfilClient) : Z :=
  let seuil := Py.dict_get_default SEUILS_MONTANT_PROFIL (profession profil) 10000000%Z in
  if String.eqb (type_client profil) "entreprise"
  then Py.dict_get_default SEUILS_MONTANT_PROFIL "entreprise" 0%Z
  else seuil.

Definition ratio_seuil (profil : ProfilClient) : Q :=
  let seuil := seuil_profil profil in
  if (0 <? seuil)%Z then montant_demande profil / inject_Z seuil else 999.

Definition msg_seuil_alerte (profil : ProfilClient) : string :=
  Py.join [ "ALERTE: Montant demandé (";
            Py.format_f true 0 (montant_demande profil); " FCFA) ";
            "très supérieur au seuil du profil '"; profession profil; "' ";
            "("; Py.format_f true 0 (inject_Z (seuil_profil profil));
            " FCFA) — ratio "; Py.format_f false 1 (ratio_seuil profil); "x" ]%string.

Definition msg_seuil_attention (profil : ProfilClient) : string :=
  Py.join [ "ATTENTION: Montant demandé (";
            Py.format_f true 0 (montant_demande profil); " FCFA) ";
            "supérieur au seuil recommandé (";
            Py.format_f true 0 (inject_Z (seuil_profil profil)); " FCFA)" ]%string.

Definition coherence_seuil (profil : ProfilClient) (e : Etat) : Etat :=
  let '(score, alertes) := e in
  if 2.0 <? ratio_seuil profil then (score - 60, alertes ++ [msg_seuil_alerte profil])
  else if 1.0 <? ratio_seuil profil then (score - 30, alertes ++ [msg_seuil_attention profil])
  else (score, alertes).

Definition ratio_revenu (profil : ProfilClient) : Q :=
  montant_demande profil / Py.max (revenu_mensuel profil) 1.

Definition msg_revenu_alerte (profil : ProfilClient) : string :=
  Py.join [ "ALERTE: Montant demandé = "; Py.format_f false 0 (ratio_revenu profil);
            "x le revenu mensuel (seuil critique: 60x)" ]%string.

Definition msg_revenu_attention (profil : ProfilClient) : string :=
  Py.join [ "ATTENTION: Montant demandé = "; Py.format_f false 0 (ratio_revenu profil);
            "x le revenu mensuel (seuil d'alerte: 48x)" ]%string.

Definition coherence_revenu (profil : ProfilClient) (e : Etat) : Etat :=
  let '(score, alertes) := e in
  if 60 <? ratio_revenu profil then (score - 30, alertes ++ [msg_revenu_alerte profil])
  else if 48 <? ratio_revenu profil then (score - 15, alertes ++ [msg_revenu_attention profil])
  else (score, alertes).

Definition msg_duree (profil : ProfilClient) : string :=
  Py.join [ "Durée de prêt très longue : "; Py.str_int (duree_pret_mois profil);
            " mois (> 7 ans)" ]%string.

Definition coherence_duree (profil : ProfilClient) (e : Etat) : Etat :=
  let '(score, alertes) := e in
  if (84 <? duree_pret_mois profil)%Z then (score - 10, alertes ++ [msg_duree profil])
  else (score, alertes).

Definition age_fin_pret (profil : ProfilClient) : Q :=
  inject_Z (age profil) + inject_Z (duree_pret_mois profil) / 12.

Definition msg_age (profil : ProfilClient) : string :=
  Py.join [ "Le client aura "; Py.format_f false 0 (age_fin_pret profil);
            " ans en fin de prêt (> 70 ans)" ]%string.

Definition coherence_age (profil : ProfilClient) (e : Etat) : Etat :=
  let '(score, alertes) := e in
  if 70 <? age_fin_pret profil then (score - 15, alertes ++ [msg_age profil])
  else (score, alertes).

Definition coherence_etat (profil : ProfilClient) : Etat :=
  coherence_age profil
    (coherence_duree profil
      (coherence_revenu profil
        (coherence_seuil profil (100, [])))).

Definition calculer_score_coherence (profil : ProfilClient) : Q * list string :=
  let '(score, alertes) := coherence_etat profil in
  (Py.round (Py.max 0 score) 2, alertes).

(* ------------------------------------------------------------------ *)
(** ** Score de fraude (séparé du risque) *)

(** The local table [seuils_revenus] of [calculer_score_fraude]. *)
Definition seuils_revenus : list (string * Z) :=
  [ ("etudiant"%string, 200000%Z);
    ("salarie_junior"%string, 500000%Z);
    ("salarie_confirme"%string, 2000000%Z);
    ("retraite"%string, 1000000%Z) ].

(** 1. Incohérence montant / profil *)
Definition fraude_coherence (score_coherence : Q) (e : Etat) : Etat :=
  let '(score, alertes_fraude) := e in
  if score_coherence <=? 20
  then (score + 40,
        alertes_fraude ++ ["Incohérence majeure entre montant et profil client"%string])
  else if score_coherence <=? 50 then (score + 20, alertes_fraude)
  else (score, alertes_fraude).

Definition msg_fraude_montant (ratio : Q) : string :=
  Py.join [ "Montant demandé = "; Py.format_f false 0 ratio; "x le revenu mensuel" ]%string.

(** 2. Montant démesuré vs revenus *)
Definition fraude_montant (profil : ProfilClient) (e : Etat) : Etat :=
  let '(score, alertes_fraude) := e in
  if 0 <? revenu_mensuel profil then
    let ratio := montant_demande profil / revenu_mensuel profil in
    if 100 <? ratio then (score + 30, alertes_fraude ++ [msg_fraude_montant ratio])
    else if 60 <? ratio then (score + 15, alertes_fraude)
    else (score, alertes_fraude)
  else (score, alertes_fraude).

Definition msg_fraude_revenu (profil : ProfilClient) : string :=
  Py.join [ "Revenu déclaré ("; Py.format_f true 0 (revenu_mensuel profil); " FCFA) ";
            "anormalement élevé pour le profil '"; profession profil; "'" ]%string.

(** [seuil_rev and revenu > seuil_rev * 3]: [None] and [0] are falsy. *)
Definition revenu_suspect (profil : ProfilClient) : bool :=
  match Py.dict_get seuils_revenus (profession profil) with
  | Some seuil_rev =>
      negb (seuil_rev =? 0)%Z && (inject_Z (seuil_rev * 3) <? revenu_mensuel profil)
  | None => false
  end.

(** 3. Revenus suspects vs profession *)
Definition fraude_revenu (profil : ProfilClient) (e : Etat) : Etat :=
  let '(score, alertes_fraude) := e in
  if revenu_suspect profil
  then (score + 15, alertes_fraude ++ [msg_fraude_revenu profil])
  else (score, alertes_fraude).

(** 4. Absence suspecte de charges *)
Definition fraude_charges (profil : ProfilClient) (e : Etat) : Etat :=
  let '(score, alertes_fraude) := e in
  if (300000 <? revenu_mensuel profil) && (charges_mensuelles profil =? 0)
  then (score + 10,
        alertes_fraude ++ ["Aucune charge déclarée malgré un revenu significatif"%string])
  else (score, alertes_fraude).

Definition msg_fraude_incidents (profil : ProfilClient) : string :=
  Py.join [ "Client avec "; Py.str_int (incidents_paiement_12m profil); " incidents ";
            "demandant "; Py.format_f true 0 (montant_demande profil); " FCFA" ]%string.

(** 5. Profil à haut risque + montant élevé *)
Definition fraude_incidents (profil : ProfilClient) (e : Etat) : Etat :=
  let '(score, alertes_fraude) := e in
  if (3 <=? incidents_paiement_12m profil)%Z && (10000000 <? montant_demande profil)
  then (score + 15, alertes_fraude ++ [msg_fraude_incidents profil])
  else (score, alertes_fraude).

Definition fraude_etat (profil : ProfilClient) (score_coherence : Q) : Etat :=
  fraude_incidents profil
    (fraude_charges profil
      (fraude_revenu profil
        (fraude_montant profil
          (fraude_coherence score_coherence (0, []))))).

Definition calculer_score_fraude (profil : ProfilClient) (score_coherence : Q)
    : Q * list string :=
  let '(score, alertes_fraude) := fraude_etat profil score_coherence in
  (Py.round (Py.min 100 score) 2, alertes_fraude).

(* ------------------------------------------------------------------ *)
(** ** Moteur de scoring principal *)

(** The loop over [SEUILS_RISQUE.items()]: the first band that holds the
    score, [defaut] when the loop ends without a [break]. *)
Fixpoint chercher_niveau (table : list (RiskLevel * (Z * Z))) (score : Q)
    (defaut : RiskLevel) : RiskLevel :=
  match table with
  | [] => defaut
  | (niveau, (seuil_bas, seuil_haut)) :: reste =>
      if (inject_Z seuil_bas <=? score) && (score <=? inject_Z seuil_haut)
      then niveau
      else chercher_niveau reste score defaut
  end.

Definition niveau_de_score (score : Q) : RiskLevel :=
  chercher_niveau SEUILS_RISQUE score CRITIQUE.

(** 2. Score global pondéré, before any rounding. *)
Definition somme_ponderee (se sh ss sc : Q) : Q :=
  se * poids "ratio_endettement" +
  sh * poids "historique_paiement" +
  ss * poids "stabilite_pro" +
  sc * poids "coherence_montant".

Definition msg_ratio_critique (ratio : Q) : string :=
  Py.join [ "Ratio d'endettement critique: "; Py.format_f false 1 (ratio * 100);
            "% (seuil: 50%)" ]%string.

Definition msg_historique (profil : ProfilClient) : string :=
  Py.join [ "Historique de paiement préoccupant: ";
            Py.str_int (incidents_paiement_12m profil); " incidents sur 12 mois" ]%string.

Definition PREFIXE_FRAUDE : string := "🔍 FRAUDE: ".

(** [for af in alertes_fraude: alertes.append(f"🔍 FRAUDE: {af}")] *)
Definition ajouter_alertes_fraude (alertes alertes_fraude : list string) : list string :=
  fold_left (fun acc af => acc ++ [(PREFIXE_FRAUDE ++ af)%string]) alertes_fraude alertes.

(** 5. Alertes globales *)
Definition assembler_alertes (profil : ProfilClient) (ratio : Q)
    (alertes_coherence alertes_fraude : list string) : list string :=
  let alertes := alertes_coherence in
  let alertes := if 0.50 <? ratio then alertes ++ [msg_ratio_critique ratio] else alertes in
  let alertes :=
    if (3 <=? incidents_paiement_12m profil)%Z
    then alertes ++ [msg_historique profil] else alertes in
  ajouter_alertes_fraude alertes alertes_fraude.

(** 6. Détection de fraude: three assignments in sequence. *)
Definition detecter_fraude (profil : ProfilClient) (score_fraude score_coherence : Q) : bool :=
  let alerte_fraude := 50 <=? score_fraude in
  let alerte_fraude := if score_coherence <=? 20 then true else alerte_fraude in
  let alerte_fraude :=
    if (0 <? revenu_mensuel profil)
       && (100 * revenu_mensuel profil <? montant_demande profil)
    then true else alerte_fraude in
  alerte_fraude.

(** 8. Recommandation *)
Definition choisir_recommandation (alerte_fraude : bool) (score_global : Q) : string :=
  if alerte_fraude then "REFUS IMMEDIAT - Dossier à transmettre au service fraude"
  else if 65 <=? score_global
  then "ACCORD DE PRINCIPE - Dossier éligible sous réserve de vérifications"
  else if 50 <=? score_global
  then "ÉTUDE APPROFONDIE - Demander des garanties supplémentaires"
  else if 35 <=? score_global
  then "RISQUE ÉLEVÉ - Accord possible avec conditions strictes (garant, nantissement)"
  else "REFUS RECOMMANDÉ - Risque trop élevé pour le profil".

(** 9. Détails additionnels *)
Definition calculer_details (profil : ProfilClient) : Details :=
  let mensualite :=
    if (0 <? duree_pret_mois profil)%Z
    then annuite (montant_demande profil) (0.15 / 12) (duree_pret_mois profil)
    else 0 in
  {| mensualite_estimee := Py.round mensualite 0;
     capacite_remboursement :=
       Py.round (revenu_mensuel profil - charges_mensuelles profil
                 - dettes_existantes profil) 0 |}.

Definition calculer_score_risque (profil : ProfilClient) : ResultatScoring :=
  let '(score_endettement, ratio) :=
    calculer_score_endettement (revenu_mensuel profil) (charges_mensuelles profil)
      (dettes_existantes profil) (montant_demande profil) (duree_pret_mois profil) in
  let score_historique := calculer_score_historique (incidents_paiement_12m profil) in
  let score_stabilite := calculer_score_stabilite (anciennete_emploi profil) (age profil) in
  let '(score_coherence, alertes_coherence) := calculer_score_coherence profil in
  let score_global :=
    somme_ponderee score_endettement score_historique score_stabilite score_coherence in
  let '(score_fraude, alertes_fraude) := calculer_score_fraude profil score_coherence in
  let niveau_risque := niveau_de_score score_global in
  let alertes := assembler_alertes profil ratio alertes_coherence alertes_fraude in
  let alerte_fraude := detecter_fraude profil score_fraude score_coherence in
  let recommandation := choisir_recommandation alerte_fraude score_global in
  {| score_global := Py.round score_global 2;
     niveau_risque := niveau_risque;
     score_endettement := score_endettement;
     score_historique := score_historique;
     score_stabilite := score_stabilite;
     score_coherence := score_coherence;
     score_fraude := score_fraude;
     ratio_endettement := ratio;
     alertes := alertes;
     recommandation := recommandation;
     alerte_fraude := alerte_fraude;
     details := calculer_details profil |}.

(** The unrounded weighted sum that [calculer_score_risque] holds in its
    local [score_global] while it selects the tier. *)
Definition score_pondere (profil : ProfilClient) : Q :=
  let r := calculer_score_risque profil in
  somme_ponderee (score_endettement r) (score_historique r)
    (score_stabilite r) (score_coherence r).

(* ------------------------------------------------------------------ *)
(** ** Simulation de prêt *)

Module Simulation.

Record Ligne : Type := {
  mois : Z;
  mensualite_ligne : Q;   (* key "mensualite" *)
  capital : Q;
  interets : Q;
  capital_restant : Q
}.

Record Resultat : Type := {
  montant : Q;
  duree_mois : Z;
  taux_annuel : Q;
  taux_mensuel : Q;
  mensualite : Q;
  cout_total : Q;
  cout_credit : Q;
  capacite_remboursement : Q;
  ratio_endettement : Q;
  eligible : option bool;
  amortissement : list Ligne
}.

(** The unrounded installment. *)
Definition mensualite_brute (montant : Q) (duree_mois : Z) (taux_annuel : Q) : Q :=
  let taux_mensuel := taux_annuel / 12 in
  if (0 <? taux_mensuel) && (0 <? duree_mois)%Z
  then annuite montant taux_mensuel duree_mois
  else montant / inject_Z (Z.max duree_mois 1).

(** The body of [for mois in range(1, duree_mois + 1)], run [n] more
    times from month [mois]. *)
Fixpoint boucle (n : nat) (mois : Z) (duree_mois : Z) (taux_mensuel mensualite : Q)
    (capital_restant : Q) (amortissement : list Ligne) : list Ligne :=
  match n with
  | O => amortissement
  | S n' =>
      let interets := capital_restant * taux_mensuel in
      let capital_rembourse := mensualite - interets in
      let capital_restant := capital_restant - capital_rembourse in
      let amortissement :=
        if (mois <=? 3)%Z || (duree_mois - 1 <=? mois)%Z
        then amortissement ++
             [ {| mois := mois;
                  mensualite_ligne := Py.round mensualite 0;
                  capital := Py.round capital_rembourse 0;
                  interets := Py.round interets 0;
                  capital_restant := Py.round (Py.max 0 capital_restant) 0 |} ]
        else amortissement in
      boucle n' (mois + 1)%Z duree_mois taux_mensuel mensualite
        capital_restant amortissement
  end.

Definition simuler_pret (montant : Q) (duree_mois : Z)
    (taux_annuel revenu_mensuel charges : Q) : Resultat :=
  let taux_mensuel := taux_annuel / 12 in
  let mensualite := mensualite_brute montant duree_mois taux_annuel in
  let cout_total := mensualite * inject_Z duree_mois in
  let cout_credit := cout_total - montant in
  let capacite := if 0 <? revenu_mensuel then revenu_mensuel - charges else 0 in
  let ratio_endettement := if 0 <? revenu_mensuel then mensualite / revenu_mensuel else 0 in
  let amortissement :=
    boucle (Z.to_nat duree_mois) 1%Z duree_mois taux_mensuel mensualite montant [] in
  {| montant := montant;
     duree_mois := duree_mois;
     taux_annuel := taux_annuel * 100;
     taux_mensuel := Py.round (taux_mensuel * 100) 3;
     mensualite := Py.round mensualite 0;
     cout_total := Py.round cout_total 0;
     cout_credit := Py.round cout_credit 0;
     capacite_remboursement := Py.round capacite 0;
     ratio_endettement := Py.round (ratio_endettement * 100) 1;
     eligible := if 0 <? revenu_mensuel then Some (ratio_endettement <? 0.33) else None;
     amortissement := amortissement |}.

(** The defaults of the signature: [taux_annuel=0.15], [revenu_mensuel=0],
    [charges=0]. *)
Definition simuler_pret_defaut (montant : Q) (duree_mois : Z) : Resultat :=
  simuler_pret montant duree_mois 0.15 0 0.

End Simulation.


(* ------------------------------------------------------------------ *)
(** ** Sample profiles *)

(** The applicant of the specification's worked example. *)
Definition profil_reference : ProfilClient :=
  {| nom := "Diop"; prenom := "Awa";
     type_client := "particulier"; profession := "salarie_junior";
     revenu_mensuel := 450000; charges_mensuelles := 80000; dettes_existantes := 30000;
     anciennete_emploi := 4; incidents_paiement_12m := 0;
     montant_demande := 5000000; duree_pret_mois := 36;
     age := 30; apport_personnel := 0; numero_cni := EmptyString |}.

(** A confirmed employee whose weighted sum is 79.9975: debt score 42.85, the
    three other scores 100. *)
Definition profil_sous_seuil : ProfilClient :=
  {| nom := "Ndiaye"; prenom := "Moussa";
     type_client := "particulier"; profession := "salarie_confirme";
     revenu_mensuel := 1000000; charges_mensuelles := 348342; dettes_existantes := 0;
     anciennete_emploi := 10; incidents_paiement_12m := 0;
     montant_demande := 1000000; duree_pret_mois := 12;
     age := 40; apport_personnel := 0; numero_cni := EmptyString |}.

(** One incident, seven tenths of a year of tenure and no debt: the weighted
    sum is 80 exactly. *)
Definition profil_sur_seuil : ProfilClient :=
  {| nom := "Fall"; prenom := "Mariama";
     type_client := "particulier"; profession := "salarie_confirme";
     revenu_mensuel := 1000000; charges_mensuelles := 100000; dettes_existantes := 0;
     anciennete_emploi := 0.7; incidents_paiement_12m := 1;
     montant_demande := 1000000; duree_pret_mois := 12;
     age := 25; apport_personnel := 0; numero_cni := EmptyString |}.

(** A student who declares 800,000 a month (four times the 200,000 of the
    income table), no charges, five incidents, and asks for 150 times the
    income: every rule of the fraud scorer fires. *)
Definition profil_cinq_regles : ProfilClient :=
  {| nom := "Sow"; prenom := "Ibrahima";
     type_client := "particulier"; profession := "etudiant";
     revenu_mensuel := 800000; charges_mensuelles := 0; dettes_existantes := 0;
     anciennete_emploi := 0.5; incidents_paiement_12m := 5;
     montant_demande := 120000000; duree_pret_mois := 120;
     age := 62; apport_personnel := 0; numero_cni := EmptyString |}.

(** The same student asking for 20,000,000 at 150 times the income, which
    puts the income at 20,000,000 / 150. *)
Definition profil_vingt_millions : ProfilClient :=
  {| nom := "Sow"; prenom := "Ibrahima";
     type_client := "particulier"; profession := "etudiant";
     revenu_mensuel := 400000 # 3; charges_mensuelles := 0; dettes_existantes := 0;
     anciennete_emploi := 0.5; incidents_paiement_12m := 5;
     montant_demande := 20000000; duree_pret_mois := 120;
     age := 62; apport_personnel := 0; numero_cni := EmptyString |}.

(** An applicant who declares no income. *)
Definition profil_sans_revenu : ProfilClient :=
  {| nom := "Ba"; prenom := "Fatou";
     type_client := "particulier"; profession := "etudiant";
     revenu_mensuel := 0; charges_mensuelles := 20000; dettes_existantes := 0;
     anciennete_emploi := 0; incidents_paiement_12m := 0;
     montant_demande := 100000; duree_pret_mois := 24;
     age := 22; apport_personnel := 0; numero_cni := EmptyString |}.

(* ------------------------------------------------------------------ *)
(** ** When a rule of the fraud scorer fires

    The conditions of the five blocks of [calculer_score_fraude] that add
    their full amount (40, 30, 15, 10, 15). *)

Definition regle_coherence (score_coherence : Q) : Prop := score_coherence <= 20.

Definition regle_montant (profil : ProfilClient) : Prop :=
  0 < revenu_mensuel profil /\ 100 < montant_demande profil / revenu_mensuel profil.

Definition regle_revenu (profil : ProfilClient) : Prop := revenu_suspect profil = true.

Definition regle_charges (profil : ProfilClient) : Prop :=
  300000 < revenu_mensuel profil /\ charges_mensuelles profil == 0.

Definition regle_incidents (profil : ProfilClient) : Prop :=
  (3 <= incidents_paiement_12m profil)%Z /\ 10000000 < montant_demande profil.

(* ================================================================== *)
(** * The rest of the engine and its callers *)

From Stdlib Require Import Qpower Permutation Sorted.

(* ------------------------------------------------------------------ *)
(** ** Explainable AI — justification du score *)

Module Explication.

(** One entry of [facteurs]: the dictionary with the keys "facteur",
    "impact", "score" and "detail". *)
Record Facteur : Type := {
  facteur : string;
  impact : string;
  score : Q;
  detail : string
}.

Definition ordre_impact : list (string * Z) :=
  [ ("très négatif"%string, 0%Z);
    ("négatif"%string, 1%Z);
    ("positif"%string, 2%Z);
    ("très positif"%string, 3%Z) ].

(** The sort key [lambda x: ordre_impact.get(x["impact"], 2)]. *)
Definition cle (x : Facteur) : Z := Py.dict_get_default ordre_impact (impact x) 2%Z.

(** [list.sort(key=...)] is a stable sort: the result is fixed by the keys
    and the input order (lemmas [trier_sorted], [trier_permutation],
    [trier_stable]), so it is written here as the insertion that keeps an
    element in front of the later elements of equal key. *)
Fixpoint inserer (x : Facteur) (l : list Facteur) : list Facteur :=
  match l with
  | [] => [x]
  | y :: reste =>
      if (cle x <=? cle y)%Z then x :: y :: reste else y :: inserer x reste
  end.

Fixpoint trier (l : list Facteur) : list Facteur :=
  match l with
  | [] => []
  | x :: reste => inserer x (trier reste)
  end.

(** The two lists that the generator fills: [facteurs] and [explications]. *)
Definition Notes : Type := (list Facteur * list string)%type.

Definition pourcent (ratio : Q) : string := Py.format_f false 1 (ratio * 100).

Definition NL : string := String (ascii_of_nat 10) EmptyString.

Section Generateur.

(** [str(x)] of a float, as the f-strings call it on [anciennete_emploi] and
    on [score_fraude]: the shortest decimal that reads back as the same
    double.  It belongs to the language, not to the engine, and the exact
    rationals of this development do not fix it; the generator takes it as a
    parameter. *)
Variable str_float : Q -> string.

(** Endettement (poids 35%).  The local [impact_end] of the source is
    assigned and never read. *)
Definition noter_endettement (score_end ratio : Q) (n : Notes) : Notes :=
  let '(facteurs, explications) := n in
  if score_end <? 40 then
    (facteurs ++
       [ {| facteur := "Ratio d'endettement";
            impact := "très négatif";
            score := score_end;
            detail := Py.join [ "Ratio d'endettement de "; pourcent ratio;
                                "% (critique > 45%)" ]%string |} ],
     explications ++
       [ Py.join [ "Le ratio d'endettement est très élevé ("; pourcent ratio; "%), ";
                   "ce qui indique une capacité de remboursement insuffisante" ]%string ])
  else if score_end <? 60 then
    (facteurs ++
       [ {| facteur := "Ratio d'endettement";
            impact := "négatif";
            score := score_end;
            detail := Py.join [ "Ratio d'endettement de "; pourcent ratio;
                                "% (élevé > 33%)" ]%string |} ],
     explications ++
       [ Py.join [ "Le ratio d'endettement ("; pourcent ratio;
                   "%) dépasse le seuil recommandé de 33%" ]%string ])
  else if 80 <=? score_end then
    (facteurs ++
       [ {| facteur := "Ratio d'endettement";
            impact := "très positif";
            score := score_end;
            detail := Py.join [ "Ratio d'endettement maîtrisé à "; pourcent ratio;
                                "%" ]%string |} ],
     explications)
  else (facteurs, explications).

(** Historique (poids 30%) *)
Definition noter_historique (profil : ProfilClient) (score_hist : Q) (n : Notes) : Notes :=
  let '(facteurs, explications) := n in
  if score_hist <? 50 then
    (facteurs ++
       [ {| facteur := "Historique de paiement";
            impact := "très négatif";
            score := score_hist;
            detail := Py.join [ Py.str_int (incidents_paiement_12m profil);
                                " incidents sur 12 mois" ]%string |} ],
     explications ++
       [ Py.join [ "L'historique de paiement est préoccupant avec ";
                   Py.str_int (incidents_paiement_12m profil);
                   " incidents sur les 12 derniers mois" ]%string ])
  else if score_hist <? 75 then
    (facteurs ++
       [ {| facteur := "Historique de paiement";
            impact := "négatif";
            score := score_hist;
            detail := Py.join [ Py.str_int (incidents_paiement_12m profil);
                                " incident(s) sur 12 mois" ]%string |} ],
     explications)
  else if score_hist =? 100 then
    (facteurs ++
       [ {| facteur := "Historique de paiement";
            impact := "très positif";
            score := score_hist;
            detail := "Aucun incident de paiement" |} ],
     explications)
  else (facteurs, explications).

(** Stabilité (poids 20%) *)
Definition noter_stabilite (profil : ProfilClient) (score_stab : Q) (n : Notes) : Notes :=
  let '(facteurs, explications) := n in
  if score_stab <? 45 then
    (facteurs ++
       [ {| facteur := "Stabilité professionnelle";
            impact := "négatif";
            score := score_stab;
            detail := Py.join [ "Ancienneté de "; str_float (anciennete_emploi profil);
                                " an(s)" ]%string |} ],
     explications ++
       [ Py.join [ "La stabilité professionnelle est faible ";
                   "(ancienneté de "; str_float (anciennete_emploi profil);
                   " an(s) seulement)" ]%string ])
  else if 85 <=? score_stab then
    (facteurs ++
       [ {| facteur := "Stabilité professionnelle";
            impact := "positif";
            score := score_stab;
            detail := Py.join [ "Ancienneté solide de ";
                                str_float (anciennete_emploi profil); " ans" ]%string |} ],
     explications)
  else (facteurs, explications).

(** Cohérence (poids 15%) *)
Definition noter_coherence (profil : ProfilClient) (score_coh : Q) (n : Notes) : Notes :=
  let '(facteurs, explications) := n in
  if score_coh <? 50 then
    (facteurs ++
       [ {| facteur := "Cohérence montant/profil";
            impact := "très négatif";
            score := score_coh;
            detail := "Montant demandé incohérent avec le profil" |} ],
     explications ++
       [ Py.join [ "Le montant demandé ("; Py.format_f true 0 (montant_demande profil);
                   " FCFA) est incohérent "; "avec le profil '"; profession profil;
                   "'" ]%string ])
  else (facteurs, explications).

(** Score de fraude *)
Definition noter_fraude (score_fraude : Q) (n : Notes) : Notes :=
  let '(facteurs, explications) := n in
  if 50 <=? score_fraude then
    (facteurs,
     explications ++
       [ Py.join [ "⚠️ Le score de fraude est élevé ("; str_float score_fraude; "/100), ";
                   "des vérifications approfondies sont nécessaires" ]%string ])
  else (facteurs, explications).

(** The two lists once the five blocks have run. *)
Definition notes (profil : ProfilClient)
    (score_end score_hist score_stab score_coh ratio score_fraude : Q) : Notes :=
  noter_fraude score_fraude
    (noter_coherence profil score_coh
      (noter_stabilite profil score_stab
        (noter_historique profil score_hist
          (noter_endettement score_end ratio ([], []))))).

Definition intro (score_global : Q) : string :=
  if 65 <=? score_global then
    Py.join [ "Le score de "; Py.format_f false 1 score_global;
              "/100 est favorable." ]%string
  else if 50 <=? score_global then
    Py.join [ "Le score de "; Py.format_f false 1 score_global;
              "/100 est modéré et nécessite une analyse approfondie." ]%string
  else if 35 <=? score_global then
    Py.join [ "Le score de "; Py.format_f false 1 score_global;
              "/100 est faible, principalement en raison de :" ]%string
  else
    Py.join [ "Le score de "; Py.format_f false 1 score_global;
              "/100 est critique. Les facteurs de risque majeurs sont :" ]%string.

Definition PUCE : string := (NL ++ "• ")%string.

Definition generer_explication (profil : ProfilClient)
    (score_end score_hist score_stab score_coh ratio score_global score_fraude : Q)
    : string * list Facteur :=
  let '(facteurs, explications) :=
    notes profil score_end score_hist score_stab score_coh ratio score_fraude in
  let facteurs := trier facteurs in
  let explication_finale := intro score_global in
  let explication_finale :=
    match explications with
    | [] => explication_finale
    | _ :: _ => (explication_finale ++ PUCE ++ String.concat PUCE explications)%string
    end in
  (explication_finale, facteurs).

(** Step 7 of [calculer_score_risque]: the generator on the component scores
    of the result, the reported ratio and the unrounded global score.  Its
    two outputs are the fields [explication] and [facteurs_importants]. *)
Definition expliquer (profil : ProfilClient) : string * list Facteur :=
  let r := calculer_score_risque profil in
  generer_explication profil (score_endettement r) (score_historique r)
    (score_stabilite r) (score_coherence r) (ratio_endettement r)
    (score_pondere profil) (score_fraude r).

End Generateur.

End Explication.

(* ------------------------------------------------------------------ *)
(** ** More sample profiles *)

(** A record whose incident count is negative, which the engine accepts. *)
Definition profil_incidents_negatifs : ProfilClient :=
  {| nom := "Gueye"; prenom := "Aminata";
     type_client := "particulier"; profession := "salarie_confirme";
     revenu_mensuel := 1000000; charges_mensuelles := 100000; dettes_existantes := 0;
     anciennete_emploi := 12; incidents_paiement_12m := (-40);
     montant_demande := 1000000; duree_pret_mois := 12;
     age := 40; apport_personnel := 0; numero_cni := EmptyString |}.

(** The applicant of the worked example, asking for 9,000,000 instead of
    5,000,000. *)
Definition profil_reference_plus : ProfilClient :=
  {| nom := "Diop"; prenom := "Awa";
     type_client := "particulier"; profession := "salarie_junior";
     revenu_mensuel := 450000; charges_mensuelles := 80000; dettes_existantes := 30000;
     anciennete_emploi := 4; incidents_paiement_12m := 0;
     montant_demande := 9000000; duree_pret_mois := 36;
     age := 30; apport_personnel := 0; numero_cni := EmptyString |}.

(* ------------------------------------------------------------------ *)
(** ** The amortization loop, month by month *)

(** The balance that the loop of [simuler_pret] holds [n] months after it
    held [capital_restant]: each month takes the installment less the
    interest on the balance. *)
Fixpoint solde (taux_mensuel mensualite capital_restant : Q) (n : nat) : Q :=
  match n with
  | O => capital_restant
  | S n' =>
      solde taux_mensuel mensualite
        (capital_restant - (mensualite - capital_restant * taux_mensuel)) n'
  end.

(** The test of the loop on the month: the first three and the last two. *)
Definition mois_affiche (duree_mois mois : Z) : bool :=
  (mois <=? 3)%Z || (duree_mois - 1 <=? mois)%Z.

(** [range(mois, mois + n)] *)
Fixpoint mois_de (mois : Z) (n : nat) : list Z :=
  match n with
  | O => []
  | S n' => mois :: mois_de (mois + 1)%Z n'
  end.

(* ------------------------------------------------------------------ *)
(** ** ResultatScoring.to_dict *)

(** The dictionary of [to_dict], on the fields that [ResultatScoring] holds
    here; a key is written [cle_<key>].  The values under "explication" and
    "facteurs_importants" are copied unchanged by the source. *)
Record Dictionnaire : Type := {
  cle_score_global : Q;
  cle_niveau_risque : string;
  cle_score_endettement : Q;
  cle_score_historique : Q;
  cle_score_stabilite : Q;
  cle_score_coherence : Q;
  cle_score_fraude : Q;
  cle_ratio_endettement : Q;
  cle_alertes : list string;
  cle_recommandation : string;
  cle_alerte_fraude : bool;
  cle_details : Details
}.

Definition to_dict (self : ResultatScoring) : Dictionnaire :=
  {| cle_score_global := Py.round (score_global self) 2;
     cle_niveau_risque := RiskLevel_value (niveau_risque self);
     cle_score_endettement := Py.round (score_endettement self) 2;
     cle_score_historique := Py.round (score_historique self) 2;
     cle_score_stabilite := Py.round (score_stabilite self) 2;
     cle_score_coherence := Py.round (score_coherence self) 2;
     cle_score_fraude := Py.round (score_fraude self) 2;
     cle_ratio_endettement := Py.round (ratio_endettement self) 4;
     cle_alertes := alertes self;
     cle_recommandation := recommandation self;
     cle_alerte_fraude := alerte_fraude self;
     cle_details := details self |}.

(** An alert that does not start with the fraud marker. *)
Definition sans_marqueur (alerte : string) : Prop :=
  String.prefix PREFIXE_FRAUDE alerte = false.

(* ------------------------------------------------------------------ *)
(** ** The callers: client age and workflow of a loan file (dossiers) *)

Module Client.

Record Date : Type := { year : Z; month : Z; day : Z }.

(** [(a, b) < (c, d)] on tuples of integers. *)
Definition tuple_lt (a b c d : Z) : bool :=
  if (a =? c)%Z then (b <? d)%Z else (a <? c)%Z.

(** The property [Client.age]; [today] stands for [timezone.now().date()],
    and the boolean of the comparison counts for 1 when true. *)
Definition age (date_naissance : option Date) (today : Date) : Z :=
  match date_naissance with
  | Some naissance =>
      (year today - year naissance
       - (if tuple_lt (month today) (day today) (month naissance) (day naissance)
          then 1 else 0))%Z
  | None => 30%Z
  end.

(** Calendar order on dates, and the birthday of a given year. *)
Definition date_le (a b : Date) : Prop :=
  (year a < year b \/
   (year a = year b /\ (month a < month b \/ (month a = month b /\ day a <= day b))))%Z.

Definition anniversaire (naissance : Date) (n : Z) : Date :=
  {| year := (year naissance + n)%Z; month := month naissance; day := day naissance |}.

End Client.

Module Dossier.

(** The fields of [DossierPret] that [changer_etat_dossier] reads or
    writes; a date is a timestamp. *)
Record DossierPret : Type := {
  etat : string;
  motif_decision : string;
  date_analyse : option Z;
  date_decision : option Z
}.

Definition transitions : list (string * list string) :=
  [ ("soumis", ["en_analyse"; "alerte_fraude"]);
    ("en_analyse", ["valide"; "refuse"; "alerte_fraude"]);
    ("valide", []);
    ("refuse", []);
    ("alerte_fraude", ["en_analyse"; "refuse"]) ]%string.

Definition transitions_possibles (self : DossierPret) : list string :=
  Py.dict_get_default transitions (etat self) [].

(** [x in l] *)
Definition dans (x : string) (l : list string) : bool := existsb (String.eqb x) l.

(** [changer_etat_dossier]: the value returned and the file as saved.
    [maintenant] stands for [timezone.now()].  The audit entry and the
    notification that follow an accepted change are written to other tables
    and are not part of the file. *)
Definition changer_etat_dossier (dossier : DossierPret) (nouvel_etat motif : string)
    (maintenant : Z) : bool * DossierPret :=
  if negb (dans nouvel_etat (transitions_possibles dossier)) then (false, dossier)
  else
    (true,
     {| etat := nouvel_etat;
        motif_decision := motif;
        date_analyse :=
          if String.eqb nouvel_etat "en_analyse" then Some maintenant
          else date_analyse dossier;
        date_decision :=
          if String.eqb nouvel_etat "en_analyse" then date_decision dossier
          else if dans nouvel_etat ["valide"; "refuse"; "alerte_fraude"]%string
               then Some maintenant
               else date_decision dossier |}).

(** A series of requests [(nouvel_etat, motif, maintenant)], one call each. *)
Fixpoint appliquer (dossier : DossierPret) (demandes : list (string * string * Z))
    : DossierPret :=
  match demandes with
  | [] => dossier
  | (nouvel_etat, motif, maintenant) :: reste =>
      appliquer (snd (changer_etat_dossier dossier nouvel_etat motif maintenant)) reste
  end.

End Dossier.
(* ================================================================== *)
(** * Properties *)

(** ** Comparisons and rounding *)

Section Numerics.

Lemma leb_iff (x y : Q) : (x <=? y) = true <-> x <= y.
Proof. apply Qle_bool_iff. Qed.

Lemma leb_false_iff (x y : Q) : (x <=? y) = false <-> y < x.
Proof.
  unfold Py.leb. split; intro H.
  - apply Qnot_le_lt. intro L. apply Qle_bool_iff in L. congruence.
  - destruct (Qle_bool x y) eqn:E; [ | reflexivity ].
    apply Qle_bool_iff in E. lra.
Qed.

Lemma ltb_iff (x y : Q) : (x <? y) = true <-> x < y.
Proof.
  unfold Py.ltb. rewrite negb_true_iff. apply (leb_false_iff y x).
Qed.

Lemma ltb_false_iff (x y : Q) : (x <? y) = false <-> y <= x.
Proof.
  unfold Py.ltb. rewrite negb_false_iff. apply Qle_bool_iff.
Qed.

Lemma eqb_iff (x y : Q) : (x =? y) = true <-> x == y.
Proof. apply Qeq_bool_iff. Qed.

Lemma max_spec (a b : Q) : (a < b /\ Py.max a b = b) \/ (b <= a /\ Py.max a b = a).
Proof.
  unfold Py.max. destruct (a <? b) eqn:E.
  - left. apply ltb_iff in E. auto.
  - right. apply ltb_false_iff in E. auto.
Qed.

Lemma min_spec (a b : Q) : (b < a /\ Py.min a b = b) \/ (a <= b /\ Py.min a b = a).
Proof.
  unfold Py.min. destruct (b <? a) eqn:E.
  - left. apply ltb_iff in E. auto.
  - right. apply ltb_false_iff in E. auto.
Qed.

(** The nearest integer is the floor or its successor. *)
Lemma round_half_even_floor (x : Q) :
  (Qfloor x <= Py.round_half_even x <= Qfloor x + 1)%Z.
Proof.
  unfold Py.round_half_even.
  destruct (Qcompare_spec (x - inject_Z (Qfloor x)) (1 # 2)); try lia.
  destruct (Z.even (Qfloor x)); lia.
Qed.

Lemma round_half_even_comp (x y : Q) :
  x == y -> Py.round_half_even x = Py.round_half_even y.
Proof.
  intro E. unfold Py.round_half_even.
  rewrite (Qfloor_comp x y E).
  assert (C : (x - inject_Z (Qfloor y) ?= 1 # 2) = (y - inject_Z (Qfloor y) ?= 1 # 2)).
  { apply Qcompare_comp; [ rewrite E | ]; reflexivity. }
  rewrite C. reflexivity.
Qed.

Lemma round_half_even_mono (x y : Q) :
  x <= y -> (Py.round_half_even x <= Py.round_half_even y)%Z.
Proof.
  intro L.
  pose proof (Qfloor_resp_le x y L) as F.
  destruct (Z.eq_dec (Qfloor x) (Qfloor y)) as [E | N].
  - unfold Py.round_half_even. rewrite E.
    destruct (Qcompare_spec (x - inject_Z (Qfloor y)) (1 # 2));
      destruct (Qcompare_spec (y - inject_Z (Qfloor y)) (1 # 2));
      try destruct (Z.even (Qfloor y)); try lia; lra.
  - pose proof (round_half_even_floor x). pose proof (round_half_even_floor y). lia.
Qed.

Lemma round_half_even_Z (z : Z) : Py.round_half_even (inject_Z z) = z.
Proof.
  unfold Py.round_half_even. rewrite Qfloor_Z.
  destruct (Qcompare_spec (inject_Z z - inject_Z z) (1 # 2)); try reflexivity; lra.
Qed.

Lemma pow10_pos (n : nat) : (0 < Py.pow10 n)%Z.
Proof. unfold Py.pow10. apply Z.pow_pos_nonneg; lia. Qed.

Lemma inject_pow10_pos (n : nat) : 0 < inject_Z (Py.pow10 n).
Proof. rewrite <- (Zlt_Qlt 0). apply pow10_pos. Qed.

(** [round] sees its argument up to [==] and returns the very same term. *)
Lemma round_comp (x y : Q) (n : nat) : x == y -> Py.round x n = Py.round y n.
Proof.
  intro E. unfold Py.round. f_equal. f_equal.
  apply round_half_even_comp. rewrite E. reflexivity.
Qed.

Lemma round_mono (x y : Q) (n : nat) : x <= y -> Py.round x n <= Py.round y n.
Proof.
  intro L. unfold Py.round.
  pose proof (inject_pow10_pos n) as P.
  apply Qle_shift_div_l; [ exact P | ].
  unfold Qdiv. rewrite <- Qmult_assoc, (Qmult_comm (/ _)), Qmult_inv_r, Qmult_1_r by lra.
  rewrite <- Zle_Qle. apply round_half_even_mono.
  apply Qmult_le_compat_r; lra.
Qed.

(** Rounding at [n] decimals fixes the integers. *)
Lemma round_Z (z : Z) (n : nat) : Py.round (inject_Z z) n == inject_Z z.
Proof.
  unfold Py.round. rewrite <- inject_Z_mult, round_half_even_Z, inject_Z_mult.
  pose proof (inject_pow10_pos n). field. lra.
Qed.

Lemma round_bounds (lo hi : Z) (x : Q) (n : nat) :
  inject_Z lo <= x <= inject_Z hi -> inject_Z lo <= Py.round x n <= inject_Z hi.
Proof.
  intros [L H]. split.
  - rewrite <- (round_Z lo n). now apply round_mono.
  - rewrite <- (round_Z hi n). now apply round_mono.
Qed.

End Numerics.

(** Turns the boolean tests of the embedding into order facts and splits on
    each of them. *)
Ltac py_bool H :=
  first [ apply leb_iff in H | apply leb_false_iff in H
        | apply ltb_iff in H | apply ltb_false_iff in H
        | apply eqb_iff in H
        | apply Z.leb_le in H | apply Z.leb_gt in H
        | apply Z.ltb_lt in H | apply Z.ltb_ge in H
        | apply Z.eqb_eq in H | apply Z.eqb_neq in H ].

Ltac py_case :=
  match goal with
  | |- context [ if ?b && ?c then _ else _ ] =>
      let E := fresh "E" in destruct b eqn:E; cbn [andb]; try py_bool E
  | |- context [ if ?b || ?c then _ else _ ] =>
      let E := fresh "E" in destruct b eqn:E; cbn [orb]; try py_bool E
  | |- context [ if ?b then _ else _ ] =>
      let E := fresh "E" in destruct b eqn:E; try py_bool E
  end.

(** Division by a numeral, written as a product so that [lra] reads it. *)
Ltac qconst :=
  unfold Qdiv in *; cbn [Qinv Qnum Qden inject_Z] in *.

(* ------------------------------------------------------------------ *)
(** ** The result record, field by field *)

Lemma POIDS_keys :
  poids "ratio_endettement" = 0.35 /\ poids "historique_paiement" = 0.30 /\
  poids "stabilite_pro" = 0.20 /\ poids "coherence_montant" = 0.15.
Proof. repeat split. Qed.

Lemma somme_ponderee_eq (se sh ss sc : Q) :
  somme_ponderee se sh ss sc == 0.35 * se + 0.30 * sh + 0.20 * ss + 0.15 * sc.
Proof.
  unfold somme_ponderee. destruct POIDS_keys as (-> & -> & -> & ->). ring.
Qed.

(** What [calculer_score_risque] puts in each field, in terms of the unit
    scorers. *)
Lemma calculer_score_risque_fields (p : ProfilClient) :
  let e := calculer_score_endettement (revenu_mensuel p) (charges_mensuelles p)
             (dettes_existantes p) (montant_demande p) (duree_pret_mois p) in
  let c := calculer_score_coherence p in
  let f := calculer_score_fraude p (fst c) in
  let r := calculer_score_risque p in
  score_endettement r = fst e /\
  ratio_endettement r = snd e /\
  score_historique r = calculer_score_historique (incidents_paiement_12m p) /\
  score_stabilite r = calculer_score_stabilite (anciennete_emploi p) (age p) /\
  score_coherence r = fst c /\
  score_fraude r = fst f /\
  score_global r = Py.round (score_pondere p) 2 /\
  niveau_risque r = niveau_de_score (score_pondere p) /\
  alertes r = assembler_alertes p (snd e) (snd c) (snd f) /\
  alerte_fraude r = detecter_fraude p (fst f) (fst c).
Proof.
  unfold score_pondere, calculer_score_risque.
  destruct (calculer_score_endettement _ _ _ _ _) as [se ratio].
  destruct (calculer_score_coherence p) as [sc ac].
  cbn [fst snd].
  destruct (calculer_score_fraude p sc) as [sf af].
  cbn. repeat split.
Qed.

(** C4.  With a monthly income that is zero or negative the debt-ratio
    scorer returns the pair (0.0, 1.0), whatever the charges, the debts, the
    requested amount and the tenor are; the function is total, so no error
    is raised on that path. *)
Theorem endettement_revenu_nul (revenu charges dettes montant_demande : Q) (duree_mois : Z) :
  revenu <= 0 ->
  calculer_score_endettement revenu charges dettes montant_demande duree_mois = (0, 1).
Proof.
  intro H. unfold calculer_score_endettement.
  apply leb_iff in H. rewrite H. reflexivity.
Qed.

Lemma endettement_revenu_nul_witness :
  calculer_score_endettement 0 80000 30000 5000000 36 = (0, 1) /\
  calculer_score_endettement (-450000) 0 12 7 0 = (0, 1).
Proof.
  split; apply endettement_revenu_nul; lra.
Defined.

(** C1.  The global score of the result is the weighted sum
    0.35·debt + 0.30·history + 0.20·stability + 0.15·coherence of the four
    component scores of the same result, rounded to 2 decimals. *)
Theorem score_global_somme_ponderee (p : ProfilClient) :
  let r := calculer_score_risque p in
  score_global r =
  Py.round (0.35 * score_endettement r + 0.30 * score_historique r
            + 0.20 * score_stabilite r + 0.15 * score_coherence r) 2.
Proof.
  intro r. subst r.
  destruct (calculer_score_risque_fields p) as (_ & _ & _ & _ & _ & _ & G & _).
  rewrite G. apply round_comp. unfold score_pondere. apply somme_ponderee_eq.
Qed.


(* ------------------------------------------------------------------ *)
(** ** Ranges of the component scores *)

Lemma bareme_endettement_bounds (ratio : Q) : 0 <= bareme_endettement ratio <= 100.
Proof.
  unfold bareme_endettement, bande_1, bande_2, bande_3, bande_4, bande_5.
  repeat py_case; try (destruct (max_spec 0 (15 - (ratio - 0.60) / 0.40 * 15)) as [[? ->] | [? ->]]);
    qconst; lra.
Qed.

Lemma score_endettement_bounds (revenu charges dettes montant : Q) (duree : Z) :
  0 <= fst (calculer_score_endettement revenu charges dettes montant duree) <= 100.
Proof.
  unfold calculer_score_endettement. py_case; cbn [fst]; [ lra | ].
  apply (round_bounds 0 100). apply bareme_endettement_bounds.
Qed.

Lemma score_historique_bounds (incidents : Z) :
  (0 <= incidents)%Z -> 0 <= calculer_score_historique incidents <= 100.
Proof.
  intro H. unfold calculer_score_historique.
  repeat py_case; try lra.
  assert (L : 4 <= inject_Z incidents).
  { change (inject_Z 4 <= inject_Z incidents). rewrite <- Zle_Qle. lia. }
  destruct (max_spec 0 (10 - inject_Z (incidents - 4) * 2.5)) as [[? ->] | [? ->]];
    unfold Zminus in *; rewrite ?inject_Z_plus, ?inject_Z_opp in *;
    change (inject_Z 4) with 4 in *; lra.
Qed.

Lemma clamp_bounds (s : Q) : 0 <= Py.min 100 (Py.max 0 s) <= 100.
Proof.
  destruct (max_spec 0 s) as [[? ->] | [? ->]];
    match goal with |- context [ Py.min 100 ?t ] =>
      destruct (min_spec 100 t) as [[? ->] | [? ->]] end; lra.
Qed.

Lemma score_stabilite_bounds (anciennete : Q) (age : Z) :
  0 <= calculer_score_stabilite anciennete age <= 100.
Proof.
  unfold calculer_score_stabilite. apply (round_bounds 0 100). apply clamp_bounds.
Qed.

(** Every block of the coherence scorer leaves the score where it is or
    lowers it. *)
Lemma coherence_etat_le (p : ProfilClient) : fst (coherence_etat p) <= 100.
Proof.
  unfold coherence_etat, coherence_age, coherence_duree, coherence_revenu, coherence_seuil.
  repeat py_case; cbn [fst]; lra.
Qed.

Lemma score_coherence_bounds (p : ProfilClient) :
  0 <= fst (calculer_score_coherence p) <= 100.
Proof.
  unfold calculer_score_coherence.
  pose proof (coherence_etat_le p) as H.
  destruct (coherence_etat p) as [s al]. cbn [fst] in *.
  apply (round_bounds 0 100). change (0 <= Py.max 0 s <= 100).
  destruct (max_spec 0 s) as [[? ->] | [? ->]]; lra.
Qed.

(** With a non-negative incident count the weighted sum stays in [0, 100],
    the range that the six bands cover. *)
Lemma score_pondere_bounds (p : ProfilClient) :
  (0 <= incidents_paiement_12m p)%Z -> 0 <= score_pondere p <= 100.
Proof.
  intro H. unfold score_pondere.
  destruct (calculer_score_risque_fields p) as (-> & _ & -> & -> & -> & _).
  rewrite somme_ponderee_eq.
  pose proof (score_endettement_bounds (revenu_mensuel p) (charges_mensuelles p)
                (dettes_existantes p) (montant_demande p) (duree_pret_mois p)).
  pose proof (score_historique_bounds _ H).
  pose proof (score_stabilite_bounds (anciennete_emploi p) (age p)).
  pose proof (score_coherence_bounds p).
  lra.
Qed.

(* ------------------------------------------------------------------ *)
(** ** Tier lookup *)

(** The scan of [SEUILS_RISQUE] on any score: the band tested first wins a
    shared bound, and a score outside [0, 100] ends on the default. *)
Lemma niveau_de_score_bandes (s : Q) :
  (80 <= s <= 100 -> niveau_de_score s = TRES_FAIBLE) /\
  (65 <= s < 80 -> niveau_de_score s = FAIBLE) /\
  (50 <= s < 65 -> niveau_de_score s = MODERE) /\
  (35 <= s < 50 -> niveau_de_score s = ELEVE) /\
  (20 <= s < 35 -> niveau_de_score s = TRES_ELEVE) /\
  (0 <= s < 20 -> niveau_de_score s = CRITIQUE) /\
  (s < 0 \/ 100 < s -> niveau_de_score s = CRITIQUE).
Proof.
  unfold niveau_de_score, SEUILS_RISQUE. cbn [chercher_niveau]. unfold inject_Z.
  repeat split; intros H; repeat py_case; try reflexivity; lra.
Qed.

(** C2 (amended).  The tier of the result is read off the weighted sum that
    the engine holds before it rounds the global score to 2 decimals, by six
    ordered bands: [80,100] very low, [65,80) low, [50,65) moderate, [35,50)
    high, [20,35) very high, [0,20) critical; a sum equal to a bound that
    two bands share (80, 65, 50, 35, 20) takes the higher band.  With a
    non-negative incident count the sum lies in [0, 100], so one of the six
    cases applies. *)
Theorem niveau_risque_bandes (p : ProfilClient) :
  let r := calculer_score_risque p in
  let s := score_pondere p in
  ((80 <= s <= 100 -> niveau_risque r = TRES_FAIBLE) /\
   (65 <= s < 80 -> niveau_risque r = FAIBLE) /\
   (50 <= s < 65 -> niveau_risque r = MODERE) /\
   (35 <= s < 50 -> niveau_risque r = ELEVE) /\
   (20 <= s < 35 -> niveau_risque r = TRES_ELEVE) /\
   (0 <= s < 20 -> niveau_risque r = CRITIQUE)) /\
  ((s == 80 -> niveau_risque r = TRES_FAIBLE) /\
   (s == 65 -> niveau_risque r = FAIBLE) /\
   (s == 50 -> niveau_risque r = MODERE) /\
   (s == 35 -> niveau_risque r = ELEVE) /\
   (s == 20 -> niveau_risque r = TRES_ELEVE)) /\
  ((0 <= incidents_paiement_12m p)%Z -> 0 <= s <= 100).
Proof.
  intros r s. subst r s.
  destruct (calculer_score_risque_fields p) as (_ & _ & _ & _ & _ & _ & _ & -> & _).
  destruct (niveau_de_score_bandes (score_pondere p)) as (B1 & B2 & B3 & B4 & B5 & B6 & _).
  repeat split; intros;
    first [ apply B1; lra | apply B2; lra | apply B3; lra | apply B4; lra
          | apply B5; lra | apply B6; lra
          | apply score_pondere_bounds; assumption ].
Qed.

Lemma niveau_risque_bandes_witness :
  niveau_risque (calculer_score_risque profil_sur_seuil) = TRES_FAIBLE /\
  niveau_risque (calculer_score_risque profil_reference) = FAIBLE.
Proof.
  split.
  - destruct (niveau_risque_bandes profil_sur_seuil) as ((B & _) & _).
    apply B. vm_compute. split; discriminate.
  - destruct (niveau_risque_bandes profil_reference) as ((_ & B & _) & _).
    apply B. vm_compute. split; [ discriminate | reflexivity ].
Defined.

(** C2, on the global score that the result reports.  Two profiles report
    the same global score, 80, and carry different tiers: the tier is not a
    function of the reported score, and at the reported bound 80 the first
    of them has the lower band "Faible", not the higher band. *)
Lemma niveau_score_affiche_80 :
  score_global (calculer_score_risque profil_sous_seuil) == 80 /\
  score_global (calculer_score_risque profil_sur_seuil) == 80 /\
  niveau_risque (calculer_score_risque profil_sous_seuil) = FAIBLE /\
  niveau_risque (calculer_score_risque profil_sur_seuil) = TRES_FAIBLE /\
  niveau_risque (calculer_score_risque profil_sous_seuil)
  <> niveau_risque (calculer_score_risque profil_sur_seuil).
Proof.
  vm_compute. repeat split. discriminate.
Qed.

(** The scan on the bounds of the table. *)
Example niveau_de_score_bornes :
  niveau_de_score 100 = TRES_FAIBLE /\ niveau_de_score 80 = TRES_FAIBLE /\
  niveau_de_score 65 = FAIBLE /\ niveau_de_score 50 = MODERE /\
  niveau_de_score 35 = ELEVE /\ niveau_de_score 20 = TRES_ELEVE /\
  niveau_de_score 0 = CRITIQUE.
Proof. repeat split. Qed.

(* ------------------------------------------------------------------ *)
(** ** Tier and reported score *)

Lemma Qfloor_unique (x : Q) (z : Z) :
  inject_Z z <= x -> x < inject_Z (z + 1) -> Qfloor x = z.
Proof.
  intros L U.
  pose proof (Qfloor_le x) as FL. pose proof (Qlt_floor x) as FU.
  assert (A : inject_Z z < inject_Z (Qfloor x + 1)) by lra.
  assert (B : inject_Z (Qfloor x) < inject_Z (z + 1)) by lra.
  rewrite <- Zlt_Qlt in A, B. lia.
Qed.

(** The window below 80 that rounds up to 80.00 (79.995 itself is a tie,
    and 8000 is the even neighbour). *)
Lemma round_sous_80 (s : Q) : 79.995 <= s -> s < 80 -> Py.round s 2 == 80.
Proof.
  intros L U. unfold Py.round.
  assert (F : Qfloor (s * inject_Z (Py.pow10 2)) = 7999%Z).
  { apply Qfloor_unique; change (inject_Z (Py.pow10 2)) with 100;
      [ change (inject_Z 7999) with 7999 | change (inject_Z (7999 + 1)) with 8000 ]; lra. }
  assert (R : Py.round_half_even (s * inject_Z (Py.pow10 2)) = 8000%Z).
  { unfold Py.round_half_even. rewrite F.
    change (inject_Z (Py.pow10 2)) with 100. change (inject_Z 7999) with 7999.
    destruct (Qcompare_spec (s * 100 - 7999) (1 # 2)); try reflexivity; lra. }
  rewrite R. reflexivity.
Qed.

(** C9.  The tier is selected on the unrounded weighted sum and the global
    score is rounded to 2 decimals only when the result is built.  Whenever
    the sum lies in [79.995, 80) the result reports 80.0 with the tier
    "Faible", whereas the band table read at the reported score gives "Très
    faible"; such inputs exist. *)
Theorem niveau_avant_arrondi :
  (forall p : ProfilClient,
     niveau_risque (calculer_score_risque p) = niveau_de_score (score_pondere p) /\
     score_global (calculer_score_risque p) = Py.round (score_pondere p) 2) /\
  (forall p : ProfilClient,
     79.995 <= score_pondere p < 80 ->
     score_global (calculer_score_risque p) == 80 /\
     niveau_risque (calculer_score_risque p) = FAIBLE /\
     niveau_de_score (score_global (calculer_score_risque p)) = TRES_FAIBLE) /\
  (exists p : ProfilClient, 79.995 <= score_pondere p < 80).
Proof.
  assert (G : forall p : ProfilClient,
    niveau_risque (calculer_score_risque p) = niveau_de_score (score_pondere p) /\
    score_global (calculer_score_risque p) = Py.round (score_pondere p) 2).
  { intro p.
    destruct (calculer_score_risque_fields p) as (_ & _ & _ & _ & _ & _ & -> & -> & _).
    split; reflexivity. }
  split; [ exact G | split ].
  - intros p [L U]. destruct (G p) as [-> ->].
    pose proof (round_sous_80 _ L U) as R.
    split; [ exact R | split ].
    + apply niveau_de_score_bandes. lra.
    + apply niveau_de_score_bandes. lra.
  - exists profil_sous_seuil. vm_compute. split; [ discriminate | reflexivity ].
Qed.

Lemma niveau_avant_arrondi_witness :
  score_pondere profil_sous_seuil == 79.9975 /\
  score_global (calculer_score_risque profil_sous_seuil) == 80 /\
  niveau_risque (calculer_score_risque profil_sous_seuil) = FAIBLE /\
  niveau_de_score (score_global (calculer_score_risque profil_sous_seuil)) = TRES_FAIBLE.
Proof.
  split; [ vm_compute; reflexivity | ].
  apply (proj1 (proj2 niveau_avant_arrondi) profil_sous_seuil).
  vm_compute. split; [ discriminate | reflexivity ].
Defined.

(* ------------------------------------------------------------------ *)
(** ** The debt-ratio scale *)

Lemma score_endettement_bareme (revenu charges dettes montant : Q) (duree : Z) :
  0 < revenu ->
  calculer_score_endettement revenu charges dettes montant duree =
  (Py.round (bareme_endettement (ratio_brut revenu charges dettes montant duree)) 2,
   Py.round (ratio_brut revenu charges dettes montant duree) 4).
Proof.
  intro H. unfold calculer_score_endettement.
  apply leb_false_iff in H. rewrite H. reflexivity.
Qed.

(** Between two ratios the scale falls, and by at most 250 points per unit
    of ratio (the steepest band loses 30 points over 0.12): it has no jump,
    at a band boundary or elsewhere. *)
Lemma bareme_endettement_pente (r1 r2 : Q) :
  r1 <= r2 ->
  0 <= bareme_endettement r1 - bareme_endettement r2 <= 250 * (r2 - r1).
Proof.
  intro L.
  unfold bareme_endettement, bande_1, bande_2, bande_3, bande_4, bande_5, Py.max.
  repeat py_case; qconst; lra.
Qed.

(** C6.  The debt-ratio score is the scale below read at the debt ratio
    and rounded to 2 decimals.  On ratios in (0, 1] it never rises with the
    ratio, before and after the rounding; the formulas of two
    adjacent bands agree where they meet (100 at 0.20, 70 at 0.33, 40 at
    0.45, 15 at 0.60), the scale moves by at most 250 times the change of
    the ratio, and the last band never goes below 0, which it reaches at
    ratio 1. *)
Theorem bareme_endettement_decroissant_continu :
  (forall (revenu charges dettes montant : Q) (duree : Z),
     0 < revenu ->
     fst (calculer_score_endettement revenu charges dettes montant duree) =
     Py.round (bareme_endettement (ratio_brut revenu charges dettes montant duree)) 2) /\
  (forall r1 r2 : Q, 0 < r1 -> r1 <= r2 -> r2 <= 1 ->
     bareme_endettement r2 <= bareme_endettement r1 /\
     Py.round (bareme_endettement r2) 2 <= Py.round (bareme_endettement r1) 2 /\
     Qabs (bareme_endettement r1 - bareme_endettement r2) <= 250 * (r2 - r1)) /\
  (bande_1 0.20 == 100 /\ bande_2 0.20 == 100 /\ bareme_endettement 0.20 == 100) /\
  (bande_2 0.33 == 70 /\ bande_3 0.33 == 70 /\ bareme_endettement 0.33 == 70) /\
  (bande_3 0.45 == 40 /\ bande_4 0.45 == 40 /\ bareme_endettement 0.45 == 40) /\
  (bande_4 0.60 == 15 /\ bande_5 0.60 == 15 /\ bareme_endettement 0.60 == 15) /\
  (forall r : Q, 0 <= bande_5 r) /\
  bande_5 1 == 0.
Proof.
  split; [ | split; [ | repeat split; try (vm_compute; reflexivity) ] ].
  - intros revenu charges dettes montant duree H.
    rewrite (score_endettement_bareme _ _ _ _ _ H). reflexivity.
  - intros r1 r2 _ L _.
    pose proof (bareme_endettement_pente r1 r2 L) as [P1 P2].
    split; [ lra | split ].
    + apply round_mono. lra.
    + rewrite Qabs_pos by exact P1. exact P2.
  - intro r. unfold bande_5.
    destruct (max_spec 0 (15 - (r - 0.60) / 0.40 * 15)) as [[? ->] | [? ->]]; lra.
Qed.

Lemma bareme_endettement_decroissant_continu_witness :
  bareme_endettement 0.5 <= bareme_endettement 0.25 /\
  Py.round (bareme_endettement 0.5) 2 <= Py.round (bareme_endettement 0.25) 2 /\
  Qabs (bareme_endettement 0.25 - bareme_endettement 0.5) <= 250 * (0.5 - 0.25).
Proof.
  apply (proj1 (proj2 bareme_endettement_decroissant_continu) 0.25 0.5); lra.
Defined.

(* ------------------------------------------------------------------ *)
(** ** Fraud score *)

Ltac fraude_unfold :=
  unfold fraude_etat, fraude_incidents, fraude_charges, fraude_revenu,
    fraude_montant, fraude_coherence.

(** The sum of the rule contributions, before the cap. *)
Lemma fraude_etat_bounds (p : ProfilClient) (sc : Q) :
  0 <= fst (fraude_etat p sc) <= 110.
Proof.
  fraude_unfold. repeat py_case; cbn [fst]; lra.
Qed.

Lemma score_fraude_bounds (p : ProfilClient) (sc : Q) :
  0 <= fst (calculer_score_fraude p sc) <= 100.
Proof.
  unfold calculer_score_fraude.
  pose proof (fraude_etat_bounds p sc) as B.
  destruct (fraude_etat p sc) as [s al]. cbn [fst] in *.
  apply (round_bounds 0 100). change (0 <= Py.min 100 s <= 100).
  destruct (min_spec 100 s) as [[? ->] | [? ->]]; lra.
Qed.

Lemma score_fraude_le (p : ProfilClient) (sc : Q) (b : Z) :
  fst (fraude_etat p sc) <= inject_Z b -> fst (calculer_score_fraude p sc) <= inject_Z b.
Proof.
  unfold calculer_score_fraude. destruct (fraude_etat p sc) as [s al]. cbn [fst].
  intro H. rewrite <- (round_Z b 2). apply round_mono.
  destruct (min_spec 100 s) as [[? ->] | [? ->]]; lra.
Qed.

Lemma regle_montant_produit (p : ProfilClient) :
  regle_montant p -> 100 * revenu_mensuel p < montant_demande p.
Proof.
  intros [R H].
  apply (Qmult_lt_r _ _ (revenu_mensuel p) R) in H.
  assert (E : montant_demande p / revenu_mensuel p * revenu_mensuel p == montant_demande p)
    by (field; lra).
  lra.
Qed.

(** Every income threshold of the table is at least 200,000. *)
Lemma seuils_revenus_min (prof : string) (s : Z) :
  Py.dict_get seuils_revenus prof = Some s -> (200000 <= s)%Z.
Proof.
  unfold seuils_revenus. cbn [Py.dict_get].
  repeat match goal with
         | |- context [ String.eqb ?a ?b ] => destruct (String.eqb a b)
         end;
    intro H; inversion H; lia.
Qed.

Lemma revenu_suspect_min (p : ProfilClient) :
  revenu_suspect p = true -> 600000 < revenu_mensuel p.
Proof.
  unfold revenu_suspect.
  destruct (Py.dict_get seuils_revenus (profession p)) as [s | ] eqn:D; [ | discriminate ].
  apply seuils_revenus_min in D.
  rewrite andb_true_iff. intros [_ H]. apply ltb_iff in H.
  assert (L : inject_Z 600000 <= inject_Z (s * 3)) by (rewrite <- Zle_Qle; lia).
  change (inject_Z 600000) with 600000 in L. lra.
Qed.

(** All five rules together reach 110 before the cap. *)
Lemma cinq_regles_110 (p : ProfilClient) (sc : Q) :
  regle_coherence sc -> regle_montant p -> regle_revenu p -> regle_charges p ->
  regle_incidents p ->
  fst (fraude_etat p sc) == 110 /\ length (snd (fraude_etat p sc)) = 5%nat.
Proof.
  intros R1 [R2 R2'] R3 [R4 R4'] [R5 R5'].
  apply leb_iff in R1. apply ltb_iff in R2, R2', R4, R5'.
  apply eqb_iff in R4'. apply Z.leb_le in R5.
  fraude_unfold. rewrite R1, R2, R2', R3, R4, R4', R5, R5'.
  cbn. split; reflexivity.
Qed.

(** When 20,000,000 is more than 100 times the income, the income is below
    200,000: the declared-income rule and the no-charges rule cannot fire,
    and the score stops at 40 + 30 + 15. *)
Lemma vingt_millions_85 (p : ProfilClient) (sc : Q) :
  montant_demande p == 20000000 -> regle_montant p ->
  ~ regle_revenu p /\ ~ regle_charges p /\ fst (calculer_score_fraude p sc) <= 85.
Proof.
  intros M R. pose proof (regle_montant_produit p R) as P.
  assert (NR : ~ regle_revenu p).
  { intro S. apply revenu_suspect_min in S. lra. }
  assert (NC : ~ regle_charges p).
  { intros [C _]. lra. }
  split; [ exact NR | split; [ exact NC | ] ].
  apply (score_fraude_le p sc 85).
  change (inject_Z 85) with 85.
  fraude_unfold.
  destruct (revenu_suspect p) eqn:S; [ exfalso; apply NR; exact S | ].
  destruct (300000 <? revenu_mensuel p) eqn:C; [ apply ltb_iff in C; lra | ].
  cbn [andb]. repeat py_case; cbn [fst]; lra.
Qed.

(** C5 (amended).  For every profile and every coherence score the fraud
    score lies in [0, 100]: the rule contributions add up to at most 110
    and the total is capped at 100.  Any input on which all five rules fire
    scores exactly 100; one such input is a student with coherence 10, an
    income of 800,000 (four times the 200,000 of the income table), no
    charges, 5 incidents and a requested amount of 120,000,000, which is
    150 times the income. *)
Theorem score_fraude_plafonne :
  (forall (p : ProfilClient) (sc : Q),
     0 <= fst (calculer_score_fraude p sc) <= 100 /\
     0 <= fst (fraude_etat p sc) <= 110) /\
  (forall (p : ProfilClient) (sc : Q),
     regle_coherence sc -> regle_montant p -> regle_revenu p -> regle_charges p ->
     regle_incidents p ->
     fst (fraude_etat p sc) == 110 /\
     fst (calculer_score_fraude p sc) == 100 /\
     length (snd (calculer_score_fraude p sc)) = 5%nat) /\
  (regle_coherence 10 /\ regle_montant profil_cinq_regles /\
   regle_revenu profil_cinq_regles /\ regle_charges profil_cinq_regles /\
   regle_incidents profil_cinq_regles /\
   montant_demande profil_cinq_regles / revenu_mensuel profil_cinq_regles == 150 /\
   Py.dict_get seuils_revenus (profession profil_cinq_regles) = Some 200000%Z /\
   revenu_mensuel profil_cinq_regles == 4 * 200000 /\
   fst (calculer_score_fraude profil_cinq_regles 10) == 100).
Proof.
  split; [ | split ].
  - intros p sc. split; [ apply score_fraude_bounds | apply fraude_etat_bounds ].
  - intros p sc R1 R2 R3 R4 R5.
    destruct (cinq_regles_110 p sc R1 R2 R3 R4 R5) as [E N].
    unfold calculer_score_fraude.
    destruct (fraude_etat p sc) as [s al]. cbn [fst snd] in *.
    split; [ exact E | split; [ | exact N ] ].
    rewrite (round_comp _ 100 2).
    + vm_compute. reflexivity.
    + destruct (min_spec 100 s) as [[? ->] | [? ->]]; lra.
  - unfold regle_coherence, regle_montant, regle_revenu, regle_charges, regle_incidents.
    vm_compute. repeat split; discriminate.
Qed.

Lemma score_fraude_plafonne_witness :
  fst (fraude_etat profil_cinq_regles 10) == 110 /\
  fst (calculer_score_fraude profil_cinq_regles 10) == 100 /\
  length (snd (calculer_score_fraude profil_cinq_regles 10)) = 5%nat.
Proof.
  apply (proj1 (proj2 score_fraude_plafonne) profil_cinq_regles 10).
  - unfold regle_coherence. lra.
  - unfold regle_montant. vm_compute. split; reflexivity.
  - reflexivity.
  - unfold regle_charges. vm_compute. split; reflexivity.
  - unfold regle_incidents. vm_compute. split; [ discriminate | reflexivity ].
Defined.

(** C5, the example as the specification words it.  The values that it
    lists do not go together.  A profile asking for 20,000,000 at 150 times the income has
    an income of 133,333.33: with coherence 10, no charges and 5 incidents
    its fraud score is 85, the declared-income rule and the no-charges rule
    stay silent, the income is four times no threshold of the table, and no
    profile asking for 20,000,000 on which the amount rule fires scores
    above 85. *)
Lemma exemple_vingt_millions :
  (montant_demande profil_vingt_millions == 20000000 /\
   montant_demande profil_vingt_millions / revenu_mensuel profil_vingt_millions == 150 /\
   charges_mensuelles profil_vingt_millions == 0 /\
   incidents_paiement_12m profil_vingt_millions = 5%Z) /\
  fst (calculer_score_fraude profil_vingt_millions 10) == 85 /\
  ~ fst (calculer_score_fraude profil_vingt_millions 10) == 100 /\
  ~ regle_revenu profil_vingt_millions /\
  ~ regle_charges profil_vingt_millions /\
  (forall (prof : string) (s : Z),
     Py.dict_get seuils_revenus prof = Some s ->
     ~ revenu_mensuel profil_vingt_millions == 4 * inject_Z s) /\
  (forall (p : ProfilClient) (sc : Q),
     montant_demande p == 20000000 -> regle_montant p ->
     fst (calculer_score_fraude p sc) <= 85).
Proof.
  split; [ vm_compute; repeat split | ].
  split; [ vm_compute; reflexivity | ].
  split; [ vm_compute; discriminate | ].
  split; [ vm_compute; discriminate | ].
  split; [ unfold regle_charges; vm_compute; intros [H _]; discriminate | ].
  split.
  - intros prof s D E. apply seuils_revenus_min in D.
    assert (L : inject_Z 200000 <= inject_Z s) by (rewrite <- Zle_Qle; exact D).
    change (inject_Z 200000) with 200000 in L.
    change (revenu_mensuel profil_vingt_millions) with (400000 # 3) in E. lra.
  - intros p sc M R. apply (vingt_millions_85 p sc M R).
Qed.

(* ------------------------------------------------------------------ *)
(** ** Alert list *)

(** The loop that appends the fraud alerts one by one adds the list of the
    prefixed alerts, in the same order. *)
Lemma ajouter_alertes_fraude_map (alertes alertes_fraude : list string) :
  ajouter_alertes_fraude alertes alertes_fraude =
  alertes ++ map (String.append PREFIXE_FRAUDE) alertes_fraude.
Proof.
  unfold ajouter_alertes_fraude.
  revert alertes. induction alertes_fraude as [ | af rest IH ]; intro alertes; cbn [fold_left map].
  - now rewrite app_nil_r.
  - rewrite IH, <- app_assoc. reflexivity.
Qed.

(** C7.  The alert list of the result is the list of the coherence alerts
    in the order of the coherence scorer, then the debt-ratio alert, present
    once exactly when the debt ratio of the result exceeds 0.50, then the
    incident alert, present once exactly when there are 3 incidents or more,
    then the fraud alerts in their order, each with the prefix
    "🔍 FRAUDE: ".  The result is a function of the profile, so two calls
    on one input give the same list. *)
Theorem alertes_ordre (p : ProfilClient) :
  let r := calculer_score_risque p in
  (exists a_ratio a_incidents : list string,
     alertes r =
       snd (calculer_score_coherence p) ++ a_ratio ++ a_incidents ++
       map (String.append PREFIXE_FRAUDE)
           (snd (calculer_score_fraude p (score_coherence r))) /\
     ((0.50 < ratio_endettement r /\ a_ratio = [msg_ratio_critique (ratio_endettement r)])
      \/ (ratio_endettement r <= 0.50 /\ a_ratio = [])) /\
     (((3 <= incidents_paiement_12m p)%Z /\ a_incidents = [msg_historique p])
      \/ ((incidents_paiement_12m p < 3)%Z /\ a_incidents = []))) /\
  (forall p' : ProfilClient, p' = p -> alertes (calculer_score_risque p') = alertes r).
Proof.
  intro r. subst r. split; [ | intros p' ->; reflexivity ].
  destruct (calculer_score_risque_fields p)
    as (_ & -> & _ & _ & -> & _ & _ & _ & -> & _).
  set (ratio := snd (calculer_score_endettement _ _ _ _ _)).
  unfold assembler_alertes. rewrite ajouter_alertes_fraude_map.
  exists (if 0.50 <? ratio then [msg_ratio_critique ratio] else []).
  exists (if (3 <=? incidents_paiement_12m p)%Z then [msg_historique p] else []).
  split; [ | split ].
  - destruct (0.50 <? ratio); destruct (3 <=? incidents_paiement_12m p)%Z;
      cbn [app]; rewrite <- ?app_assoc, ?app_nil_r; reflexivity.
  - destruct (0.50 <? ratio) eqn:E; py_bool E; auto.
  - destruct (3 <=? incidents_paiement_12m p)%Z eqn:E; py_bool E; auto.
Qed.

(** A profile that triggers the four groups at once. *)
Example alertes_cinq_regles :
  alertes (calculer_score_risque profil_cinq_regles) =
  [ "ALERTE: Montant demandé (120,000,000 FCFA) très supérieur au seuil du profil 'etudiant' (500,000 FCFA) — ratio 240.0x";
    "ALERTE: Montant demandé = 150x le revenu mensuel (seuil critique: 60x)";
    "Durée de prêt très longue : 120 mois (> 7 ans)";
    "Le client aura 72 ans en fin de prêt (> 70 ans)";
    "Ratio d'endettement critique: 242.0% (seuil: 50%)";
    "Historique de paiement préoccupant: 5 incidents sur 12 mois";
    "🔍 FRAUDE: Incohérence majeure entre montant et profil client";
    "🔍 FRAUDE: Montant demandé = 150x le revenu mensuel";
    "🔍 FRAUDE: Revenu déclaré (800,000 FCFA) anormalement élevé pour le profil 'etudiant'";
    "🔍 FRAUDE: Aucune charge déclarée malgré un revenu significatif";
    "🔍 FRAUDE: Client avec 5 incidents demandant 120,000,000 FCFA" ]%string.
Proof. vm_compute. reflexivity. Qed.

(* ------------------------------------------------------------------ *)
(** ** Loan simulator *)

(** C8.  The simulator answers [None] for the eligibility when the monthly
    income is zero or negative, and otherwise the boolean that tells whether
    the installment divided by the income is below 0.33: three outcomes,
    "unknown" apart from "ineligible". *)
Theorem simuler_pret_eligible (montant : Q) (duree_mois : Z)
    (taux_annuel revenu_mensuel charges : Q) :
  let r := Simulation.simuler_pret montant duree_mois taux_annuel revenu_mensuel charges in
  (revenu_mensuel <= 0 -> Simulation.eligible r = None) /\
  (0 < revenu_mensuel ->
   exists b : bool,
     Simulation.eligible r = Some b /\
     (b = true <->
      Simulation.mensualite_brute montant duree_mois taux_annuel / revenu_mensuel < 0.33)).
Proof.
  intro r. subst r. unfold Simulation.simuler_pret. cbn [Simulation.eligible].
  split; intro H.
  - apply ltb_false_iff in H. rewrite H. reflexivity.
  - apply ltb_iff in H. rewrite H.
    eexists. split; [ reflexivity | apply ltb_iff ].
Qed.

Lemma simuler_pret_eligible_witness :
  Simulation.eligible (Simulation.simuler_pret 1000000 12 0.15 0 0) = None /\
  Simulation.eligible (Simulation.simuler_pret_defaut 1000000 12) = None /\
  (exists b : bool,
     Simulation.eligible (Simulation.simuler_pret 1000000 12 0.15 200000 0) = Some b /\
     (b = true <-> Simulation.mensualite_brute 1000000 12 0.15 / 200000 < 0.33)).
Proof.
  split; [ | split ].
  - apply (simuler_pret_eligible 1000000 12 0.15 0 0). lra.
  - apply (simuler_pret_eligible 1000000 12 0.15 0 0). lra.
  - apply (simuler_pret_eligible 1000000 12 0.15 200000 0). lra.
Defined.

(** The three outcomes on one loan of 1,000,000 over 12 months. *)
Example simuler_pret_trois_issues :
  Simulation.eligible (Simulation.simuler_pret 1000000 12 0.15 0 0) = None /\
  Simulation.eligible (Simulation.simuler_pret 1000000 12 0.15 200000 0) = Some false /\
  Simulation.eligible (Simulation.simuler_pret 1000000 12 0.15 300000 0) = Some true.
Proof.
  unfold Simulation.simuler_pret. cbn [Simulation.eligible].
  vm_compute. repeat split.
Qed.

(* ------------------------------------------------------------------ *)
(** ** Zero or negative income *)

Lemma ratio_revenu_sans_revenu (p : ProfilClient) :
  revenu_mensuel p <= 0 -> ratio_revenu p == montant_demande p.
Proof.
  intro H. unfold ratio_revenu.
  destruct (max_spec (revenu_mensuel p) 1) as [[_ ->] | [L _]]; [ field | lra ].
Qed.

Lemma coherence_revenu_sans_revenu (p : ProfilClient) (score : Q) (al : list string) :
  revenu_mensuel p <= 0 -> 60 < montant_demande p ->
  coherence_revenu p (score, al) = (score - 30, al ++ [msg_revenu_alerte p]).
Proof.
  intros H M. unfold coherence_revenu.
  assert (E : (60 <? ratio_revenu p) = true).
  { apply ltb_iff. rewrite (ratio_revenu_sans_revenu p H). exact M. }
  rewrite E. reflexivity.
Qed.

Lemma fraude_montant_sans_revenu (p : ProfilClient) (e : Etat) :
  revenu_mensuel p <= 0 -> fraude_montant p e = e.
Proof.
  intro H. unfold fraude_montant. destruct e as [score al].
  apply ltb_false_iff in H. rewrite H. reflexivity.
Qed.

(** C10.  With a monthly income that is zero or negative, the coherence
    scorer divides the requested amount by max(income, 1) = 1: a requested
    amount above 60 takes the deduction of 30 and adds the critical alert,
    so that the coherence score is at most 70.  The fraud scorer skips its
    amount-to-income block on the same input: the block leaves score and
    alerts as they are. *)
Theorem revenu_nul_asymetrie (p : ProfilClient) :
  revenu_mensuel p <= 0 ->
  ratio_revenu p == montant_demande p /\
  (60 < montant_demande p ->
   (forall (score : Q) (al : list string),
      coherence_revenu p (score, al) = (score - 30, al ++ [msg_revenu_alerte p])) /\
   In (msg_revenu_alerte p) (snd (calculer_score_coherence p)) /\
   fst (calculer_score_coherence p) <= 70) /\
  (forall e : Etat, fraude_montant p e = e) /\
  (forall sc : Q,
     fraude_etat p sc =
     fraude_incidents p (fraude_charges p (fraude_revenu p (fraude_coherence sc (0, []))))).
Proof.
  intro H. split; [ apply ratio_revenu_sans_revenu; exact H | ].
  split; [ | split ].
  - intro M. split; [ | split ].
    + intros score al. apply coherence_revenu_sans_revenu; assumption.
    + unfold calculer_score_coherence, coherence_etat.
      destruct (coherence_seuil p (100, [])) as [s0 al0].
      rewrite (coherence_revenu_sans_revenu p s0 al0 H M).
      unfold coherence_duree, coherence_age.
      repeat py_case; cbn [snd]; rewrite ?in_app_iff; cbn [In]; tauto.
    + unfold calculer_score_coherence, coherence_etat.
      assert (S0 : fst (coherence_seuil p (100, [])) <= 100).
      { unfold coherence_seuil. repeat py_case; cbn [fst]; lra. }
      destruct (coherence_seuil p (100, [])) as [s0 al0]. cbn [fst] in S0.
      rewrite (coherence_revenu_sans_revenu p s0 al0 H M).
      unfold coherence_duree, coherence_age.
      change 70 with (inject_Z 70). rewrite <- (round_Z 70 2).
      change (inject_Z 70) with 70.
      repeat py_case; cbn [fst]; apply round_mono;
        match goal with |- Py.max 0 ?s <= _ =>
          destruct (max_spec 0 s) as [[? ->] | [? ->]] end; lra.
  - intro e. apply fraude_montant_sans_revenu. exact H.
  - intro sc. unfold fraude_etat. rewrite (fraude_montant_sans_revenu p _ H). reflexivity.
Qed.

Lemma revenu_nul_asymetrie_witness :
  ratio_revenu profil_sans_revenu == 100000 /\
  In "ALERTE: Montant demandé = 100000x le revenu mensuel (seuil critique: 60x)"%string
     (snd (calculer_score_coherence profil_sans_revenu)) /\
  fst (calculer_score_coherence profil_sans_revenu) <= 70 /\
  fraude_montant profil_sans_revenu (0, []) = (0, []).
Proof.
  assert (H : revenu_mensuel profil_sans_revenu <= 0) by (vm_compute; discriminate).
  assert (M : 60 < montant_demande profil_sans_revenu) by (vm_compute; reflexivity).
  destruct (revenu_nul_asymetrie profil_sans_revenu H) as (R & C & F & _).
  destruct (C M) as (_ & I & S).
  split; [ exact R | split; [ exact I | split; [ exact S | apply F ] ] ].
Defined.

(* ------------------------------------------------------------------ *)
(** ** Worked examples *)

(** The weighted sum on three unrelated profiles. *)
Example score_global_reference :
  let r := calculer_score_risque profil_reference in
  score_endettement r == 13.89 /\ score_historique r == 100 /\
  score_stabilite r == 83.33 /\ score_coherence r == 100 /\
  score_global r == 66.53 /\ niveau_risque r = FAIBLE.
Proof. vm_compute. repeat split. Qed.

Example score_global_cinq_regles :
  let r := calculer_score_risque profil_cinq_regles in
  score_endettement r == 0 /\ score_historique r == 7.5 /\
  score_stabilite r == 32.5 /\ score_coherence r == 0 /\
  score_global r == 8.75 /\ niveau_risque r = CRITIQUE /\ alerte_fraude r = true.
Proof. vm_compute. repeat split. Qed.

Example score_global_sans_revenu :
  let r := calculer_score_risque profil_sans_revenu in
  score_endettement r == 0 /\ ratio_endettement r == 1 /\ score_historique r == 100 /\
  score_stabilite r == 10 /\ score_coherence r == 70 /\
  score_global r == 42.5 /\ niveau_risque r = ELEVE /\ alerte_fraude r = false.
Proof. vm_compute. repeat split. Qed.

(* ================================================================== *)
(** * Further properties of the engine *)

(** ** Order lemmas for [max] and [min] *)

Lemma max_mono_r (c x y : Q) : x <= y -> Py.max c x <= Py.max c y.
Proof.
  intro L.
  destruct (max_spec c x) as [[? ->] | [? ->]];
    destruct (max_spec c y) as [[? ->] | [? ->]]; lra.
Qed.

Lemma min_mono_r (c x y : Q) : x <= y -> Py.min c x <= Py.min c y.
Proof.
  intro L.
  destruct (min_spec c x) as [[? ->] | [? ->]];
    destruct (min_spec c y) as [[? ->] | [? ->]]; lra.
Qed.

Lemma inject_Z_le (a b : Z) : (a <= b)%Z -> inject_Z a <= inject_Z b.
Proof. intro H. now rewrite <- Zle_Qle. Qed.

(* ------------------------------------------------------------------ *)
(** ** Payment history *)

Lemma historique_queue (i : Z) :
  (4 <= i)%Z ->
  calculer_score_historique i = Py.max 0 (10 - inject_Z (i - 4) * 2.5).
Proof.
  intro H. unfold calculer_score_historique.
  repeat py_case; try lia. reflexivity.
Qed.

(** X1.  On non-negative incident counts the history score never rises with
    the count and never goes below 0; from 8 incidents on it is 0. *)
Theorem historique_decroissant (i j : Z) :
  (0 <= i)%Z -> (i <= j)%Z ->
  calculer_score_historique j <= calculer_score_historique i /\
  0 <= calculer_score_historique j /\
  ((8 <= j)%Z -> calculer_score_historique j == 0).
Proof.
  intros Hi Hij.
  assert (Q4 : forall k : Z, (4 <= k)%Z ->
            0 <= calculer_score_historique k <= 10 /\
            ((8 <= k)%Z -> calculer_score_historique k == 0)).
  { intros k Hk. rewrite (historique_queue k Hk).
    pose proof (inject_Z_le 4 k Hk) as L. change (inject_Z 4) with 4 in L.
    unfold Zminus. rewrite inject_Z_plus, inject_Z_opp. change (inject_Z 4) with 4.
    match goal with |- context [ Py.max 0 ?s ] =>
      destruct (max_spec 0 s) as [[? ->] | [? ->]] end;
      (split; [ lra | ]); intro H8; apply inject_Z_le in H8;
      change (inject_Z 8) with 8 in H8; lra. }
  assert (Cj : (j = 0 \/ j = 1 \/ j = 2 \/ j = 3 \/ 4 <= j)%Z) by lia.
  assert (Ci : (i = 0 \/ i = 1 \/ i = 2 \/ i = 3 \/ 4 <= i)%Z) by lia.
  split; [ | split ].
  - destruct Cj as [-> | [-> | [-> | [-> | Hj]]]];
      destruct Ci as [-> | [-> | [-> | [-> | Hi4]]]]; try lia;
      try (vm_compute; discriminate);
      try (destruct (Q4 j Hj) as [[? ?] _];
           change (calculer_score_historique 0) with 100;
           change (calculer_score_historique 1) with 75;
           change (calculer_score_historique 2) with 50;
           change (calculer_score_historique 3) with 25; lra).
    rewrite (historique_queue i Hi4), (historique_queue j Hj).
    apply max_mono_r.
    assert (L : inject_Z (i - 4) <= inject_Z (j - 4)) by (apply inject_Z_le; lia).
    lra.
  - destruct Cj as [-> | [-> | [-> | [-> | Hj]]]]; try (vm_compute; discriminate).
    apply (Q4 j Hj).
  - intro H8. apply Q4; lia.
Qed.

Lemma historique_decroissant_witness :
  calculer_score_historique 9 <= calculer_score_historique 2 /\
  0 <= calculer_score_historique 9 /\
  ((8 <= 9)%Z -> calculer_score_historique 9 == 0).
Proof.
  apply (historique_decroissant 2 9); lia.
Defined.

(* ------------------------------------------------------------------ *)
(** ** Professional stability *)

(** X2.  At a given age the stability score never falls when the tenure
    grows, and it stays in [0, 100] for every tenure, negative ones
    included. *)
Theorem stabilite_croissante (a1 a2 : Q) (age : Z) :
  a1 <= a2 ->
  calculer_score_stabilite a1 age <= calculer_score_stabilite a2 age /\
  0 <= calculer_score_stabilite a1 age <= 100.
Proof.
  intro L. split; [ | apply score_stabilite_bounds ].
  unfold calculer_score_stabilite.
  apply round_mono, min_mono_r, max_mono_r.
  match goal with
  | |- (if ?c then Py.min 100 (?s1 + 5) else _) <= (if _ then Py.min 100 (?s2 + 5) else _) =>
      assert (B : s1 <= s2) by (repeat py_case; qconst; lra);
      generalize dependent s2; generalize dependent s1
  end.
  intros s1 s2 B.
  destruct ((30 <=? age)%Z && (age <=? 55)%Z);
    [ apply min_mono_r; lra | ].
  destruct ((age <? 23)%Z || (65 <? age)%Z);
    [ apply max_mono_r; lra | exact B ].
Qed.

Lemma stabilite_croissante_witness :
  calculer_score_stabilite 0.5 40 <= calculer_score_stabilite 7 40 /\
  0 <= calculer_score_stabilite 0.5 40 <= 100.
Proof.
  apply (stabilite_croissante 0.5 7 40). lra.
Defined.

(** X3.  For one tenure the three age brackets are ordered: an age below 23
    or above 65 never scores above an age of 23 to 29 or 56 to 65, which
    never scores above an age of 30 to 55. *)
Theorem stabilite_par_age (anciennete : Q) (jeune neutre etabli : Z) :
  (jeune < 23 \/ 65 < jeune)%Z ->
  (23 <= neutre < 30 \/ 55 < neutre <= 65)%Z ->
  (30 <= etabli <= 55)%Z ->
  calculer_score_stabilite anciennete jeune <= calculer_score_stabilite anciennete neutre /\
  calculer_score_stabilite anciennete neutre <= calculer_score_stabilite anciennete etabli.
Proof.
  intros Hj Hn He. unfold calculer_score_stabilite.
  match goal with
  | |- context [ Py.min 100 (?s + 5) ] =>
      assert (B : s <= 100) by (repeat py_case; qconst; lra);
      generalize dependent s
  end.
  intros s B.
  assert (Ej : ((30 <=? jeune)%Z && (jeune <=? 55)%Z) = false) by lia.
  assert (Ej' : ((jeune <? 23)%Z || (65 <? jeune)%Z) = true) by lia.
  assert (En : ((30 <=? neutre)%Z && (neutre <=? 55)%Z) = false) by lia.
  assert (En' : ((neutre <? 23)%Z || (65 <? neutre)%Z) = false) by lia.
  assert (Ee : ((30 <=? etabli)%Z && (etabli <=? 55)%Z) = true) by lia.
  rewrite Ej, Ej', En, En', Ee.
  split; apply round_mono, min_mono_r.
  - destruct (max_spec 0 (s - 10)) as [[? ->] | [? ->]];
      [ apply max_mono_r; lra | ].
    destruct (max_spec 0 s) as [[? ->] | [? ->]];
      destruct (max_spec 0 0) as [[? ->] | [? ->]]; lra.
  - apply max_mono_r.
    destruct (min_spec 100 (s + 5)) as [[? ->] | [? ->]]; lra.
Qed.

Lemma stabilite_par_age_witness :
  calculer_score_stabilite 3 20 <= calculer_score_stabilite 3 26 /\
  calculer_score_stabilite 3 26 <= calculer_score_stabilite 3 45.
Proof.
  apply (stabilite_par_age 3 20 26 45); lia.
Defined.

(* ------------------------------------------------------------------ *)
(** ** Coherence scorer *)

Ltac coherence_unfold :=
  unfold calculer_score_coherence, coherence_etat, coherence_age, coherence_duree,
    coherence_revenu, coherence_seuil.

Lemma snoc_not_nil {A : Type} (l : list A) (x : A) : l ++ [x] <> [].
Proof. destruct l; discriminate. Qed.

Lemma coherence_etat_cas (p : ProfilClient) :
  (snd (coherence_etat p) = [] /\ fst (coherence_etat p) = 100) \/
  (snd (coherence_etat p) <> [] /\ fst (coherence_etat p) <= 90).
Proof.
  unfold coherence_etat, coherence_age, coherence_duree, coherence_revenu, coherence_seuil.
  repeat py_case; cbn [fst snd];
    first [ left; split; reflexivity
          | right; split; [ apply snoc_not_nil | lra ] ].
Qed.

Lemma coherence_etat_longueur (p : ProfilClient) :
  (length (snd (coherence_etat p)) <= 4)%nat.
Proof.
  unfold coherence_etat, coherence_age, coherence_duree, coherence_revenu, coherence_seuil.
  repeat py_case; cbn [snd]; rewrite ?length_app; cbn [length]; lia.
Qed.

(** X4.  The coherence score is 100 exactly when the scorer raises no alert;
    every alert costs at least 10 points, and there are at most four. *)
Theorem coherence_sans_alerte (p : ProfilClient) :
  (snd (calculer_score_coherence p) = [] <-> fst (calculer_score_coherence p) == 100) /\
  (snd (calculer_score_coherence p) <> [] -> fst (calculer_score_coherence p) <= 90) /\
  (length (snd (calculer_score_coherence p)) <= 4)%nat.
Proof.
  pose proof (coherence_etat_cas p) as C. pose proof (coherence_etat_longueur p) as N.
  unfold calculer_score_coherence.
  destruct (coherence_etat p) as [s al]. cbn [fst snd] in *.
  assert (R : s <= 90 -> Py.round (Py.max 0 s) 2 <= 90).
  { intro L. change 90 with (inject_Z 90). rewrite <- (round_Z 90 2).
    apply round_mono. change (inject_Z 90) with 90.
    destruct (max_spec 0 s) as [[? ->] | [? ->]]; lra. }
  destruct C as [[A ->] | [A L]].
  - split; [ split; intro; [ vm_compute; reflexivity | exact A ] | split ];
      [ intro H; contradiction | exact N ].
  - specialize (R L).
    split; [ split; intro H; [ contradiction | lra ] | split ];
      [ intros _; exact R | exact N ].
Qed.

(** X5.  The amount threshold of a profile is positive for every profession
    string and client type: a business client takes 200,000,000 whatever the
    profession says, a profession missing from the table takes the default
    10,000,000.  The ratio to the threshold is therefore always the quotient,
    and the value 999 that the source keeps for a non-positive threshold is
    never returned as such. *)
Theorem seuil_profil_positif (p : ProfilClient) :
  (0 < seuil_profil p)%Z /\
  ratio_seuil p = montant_demande p / inject_Z (seuil_profil p) /\
  (type_client p = "entreprise"%string -> seuil_profil p = 200000000%Z) /\
  (type_client p <> "entreprise"%string ->
   Py.dict_get SEUILS_MONTANT_PROFIL (profession p) = None ->
   seuil_profil p = 10000000%Z).
Proof.
  assert (P : (0 < seuil_profil p)%Z).
  { unfold seuil_profil, Py.dict_get_default, SEUILS_MONTANT_PROFIL.
    cbn [Py.dict_get].
    destruct (String.eqb (type_client p) "entreprise"); [ reflexivity | ].
    repeat match goal with
           | |- context [ String.eqb ?a (profession p) ] =>
               destruct (String.eqb a (profession p))
           end; reflexivity. }
  split; [ exact P | split; [ | split ] ].
  - unfold ratio_seuil. apply Z.ltb_lt in P. rewrite P. reflexivity.
  - intro E. unfold seuil_profil. rewrite E. reflexivity.
  - intros N D. unfold seuil_profil, Py.dict_get_default. rewrite D.
    apply String.eqb_neq in N. rewrite N. reflexivity.
Qed.

Lemma seuil_profil_positif_witness :
  seuil_profil profil_reference = 5000000%Z /\
  seuil_profil {| nom := "SARL Teranga"; prenom := EmptyString;
                  type_client := "entreprise"; profession := "etudiant";
                  revenu_mensuel := 9000000; charges_mensuelles := 0;
                  dettes_existantes := 0; anciennete_emploi := 3;
                  incidents_paiement_12m := 0; montant_demande := 1000000;
                  duree_pret_mois := 12; age := 30; apport_personnel := 0;
                  numero_cni := EmptyString |} = 200000000%Z /\
  seuil_profil {| nom := "Kane"; prenom := "Oumar";
                  type_client := "particulier"; profession := "artisan";
                  revenu_mensuel := 300000; charges_mensuelles := 0;
                  dettes_existantes := 0; anciennete_emploi := 3;
                  incidents_paiement_12m := 0; montant_demande := 1000000;
                  duree_pret_mois := 12; age := 30; apport_personnel := 0;
                  numero_cni := EmptyString |} = 10000000%Z.
Proof.
  split; [ reflexivity | split ].
  - apply seuil_profil_positif. reflexivity.
  - apply seuil_profil_positif; [ discriminate | reflexivity ].
Defined.

(* ------------------------------------------------------------------ *)
(** ** Fraud scorer *)

Lemma fraude_etat_cas (p : ProfilClient) (sc : Q) :
  (snd (fraude_etat p sc) = [] /\ fst (fraude_etat p sc) <= 35) \/
  snd (fraude_etat p sc) <> [].
Proof.
  fraude_unfold.
  repeat py_case; cbn [fst snd];
    first [ left; split; [ reflexivity | lra ]
          | right; apply snoc_not_nil ].
Qed.

Lemma fraude_etat_longueur (p : ProfilClient) (sc : Q) :
  (length (snd (fraude_etat p sc)) <= 5)%nat.
Proof.
  fraude_unfold.
  repeat py_case; cbn [snd]; rewrite ?length_app; cbn [length]; lia.
Qed.

(** X6.  A fraud score of 50 or more always comes with at least one fraud
    alert: the two branches that add points without a message (20 for a
    coherence score of 21 to 50, 15 for an amount of 60 to 100 times the
    income) reach 35 at most.  The list never holds more than five alerts. *)
Theorem fraude_alertes_et_score (p : ProfilClient) (sc : Q) :
  (snd (calculer_score_fraude p sc) = [] -> fst (calculer_score_fraude p sc) <= 35) /\
  (50 <= fst (calculer_score_fraude p sc) -> snd (calculer_score_fraude p sc) <> []) /\
  (length (snd (calculer_score_fraude p sc)) <= 5)%nat.
Proof.
  pose proof (fraude_etat_cas p sc) as C. pose proof (fraude_etat_longueur p sc) as N.
  pose proof (score_fraude_le p sc 35) as B. change (inject_Z 35) with 35 in B.
  assert (S : snd (calculer_score_fraude p sc) = snd (fraude_etat p sc)).
  { unfold calculer_score_fraude. destruct (fraude_etat p sc). reflexivity. }
  rewrite S. split; [ | split ].
  - intro E. destruct C as [[_ L] | A]; [ exact (B L) | contradiction ].
  - intros H E. destruct C as [[_ L] | A]; [ specialize (B L); lra | contradiction ].
  - exact N.
Qed.

Lemma fraude_alertes_et_score_witness :
  fst (calculer_score_fraude profil_reference 40) <= 35 /\
  snd (calculer_score_fraude profil_cinq_regles 10) <> [].
Proof.
  split.
  - apply (fraude_alertes_et_score profil_reference 40). reflexivity.
  - apply (fraude_alertes_et_score profil_cinq_regles 10). vm_compute. discriminate.
Defined.

(* ------------------------------------------------------------------ *)
(** ** Fraud flag, recommendation and tier *)

Lemma calculer_score_risque_recommandation (p : ProfilClient) :
  recommandation (calculer_score_risque p) =
  choisir_recommandation (alerte_fraude (calculer_score_risque p)) (score_pondere p).
Proof.
  unfold score_pondere, calculer_score_risque.
  destruct (calculer_score_endettement _ _ _ _ _) as [se ratio].
  destruct (calculer_score_coherence p) as [sc ac].
  destruct (calculer_score_fraude p sc) as [sf af].
  reflexivity.
Qed.

Lemma score_fraude_ge (p : ProfilClient) (sc : Q) (b : Z) :
  (b <= 100)%Z -> inject_Z b <= fst (fraude_etat p sc) ->
  inject_Z b <= fst (calculer_score_fraude p sc).
Proof.
  intros Hb H. unfold calculer_score_fraude.
  destruct (fraude_etat p sc) as [s al]. cbn [fst] in *.
  rewrite <- (round_Z b 2). apply round_mono.
  apply inject_Z_le in Hb. change (inject_Z 100) with 100 in Hb.
  destruct (min_spec 100 s) as [[? ->] | [? ->]]; lra.
Qed.

(** X7.  A raised fraud flag means a fraud score of at least 15, and of at
    least 40 when the coherence score is 20 or less.  The flag is raised by
    the score itself from 50 on, by a coherence score of 20 or less, which
    the fraud scorer counts for 40 on the same test, or by an amount above
    100 times a positive income; the fraud scorer tests that last case on
    the quotient amount / income, and an amount above 100 times the income
    is in any case above 60 times it, which counts for 15 or for 30. *)
Theorem alerte_fraude_score_min (p : ProfilClient) :
  alerte_fraude (calculer_score_risque p) = true ->
  15 <= score_fraude (calculer_score_risque p) /\
  (score_coherence (calculer_score_risque p) <= 20 ->
   40 <= score_fraude (calculer_score_risque p)).
Proof.
  destruct (calculer_score_risque_fields p)
    as (_ & _ & _ & _ & -> & -> & _ & _ & _ & ->).
  set (sc := fst (calculer_score_coherence p)).
  assert (C40 : sc <= 20 -> 40 <= fst (calculer_score_fraude p sc)).
  { intro C. apply leb_iff in C.
    apply (score_fraude_ge p sc 40); [ lia | ]. change (inject_Z 40) with 40.
    fraude_unfold. rewrite C. repeat py_case; cbn [fst]; lra. }
  intro H. split; [ | exact C40 ].
  unfold detecter_fraude in H.
  destruct (sc <=? 20) eqn:C; [ py_bool C; specialize (C40 C); lra | ].
  destruct (0 <? revenu_mensuel p) eqn:R; cbn [andb] in H;
    [ | py_bool H; lra ].
  destruct (100 * revenu_mensuel p <? montant_demande p) eqn:M;
    [ | py_bool H; lra ].
  apply ltb_iff in R, M.
  apply (score_fraude_ge p sc 15); [ lia | ]. change (inject_Z 15) with 15.
  assert (D : 60 < montant_demande p / revenu_mensuel p)
    by (apply Qlt_shift_div_l; lra).
  apply ltb_iff in R.
  fraude_unfold. rewrite R.
  set (d := montant_demande p / revenu_mensuel p) in *.
  repeat py_case; cbn [fst]; lra.
Qed.

Lemma alerte_fraude_score_min_witness :
  15 <= score_fraude (calculer_score_risque profil_cinq_regles) /\
  (score_coherence (calculer_score_risque profil_cinq_regles) <= 20 ->
   40 <= score_fraude (calculer_score_risque profil_cinq_regles)).
Proof.
  apply (alerte_fraude_score_min profil_cinq_regles). vm_compute. reflexivity.
Defined.

(** X8.  Recommendation and tier go together.  With the fraud flag raised
    the recommendation is the immediate refusal, whatever the tier.  Without
    it, and with a non-negative incident count, the tiers "Très faible" and
    "Faible" get the agreement in principle, "Modéré" the deeper study,
    "Élevé" the agreement under strict conditions, "Très élevé" and
    "Critique" the recommended refusal. *)
Theorem recommandation_selon_niveau (p : ProfilClient) :
  (0 <= incidents_paiement_12m p)%Z ->
  let r := calculer_score_risque p in
  (alerte_fraude r = true ->
   recommandation r = "REFUS IMMEDIAT - Dossier à transmettre au service fraude"%string) /\
  (alerte_fraude r = false ->
   recommandation r =
   match niveau_risque r with
   | TRES_FAIBLE | FAIBLE =>
       "ACCORD DE PRINCIPE - Dossier éligible sous réserve de vérifications"
   | MODERE => "ÉTUDE APPROFONDIE - Demander des garanties supplémentaires"
   | ELEVE =>
       "RISQUE ÉLEVÉ - Accord possible avec conditions strictes (garant, nantissement)"
   | TRES_ELEVE | CRITIQUE => "REFUS RECOMMANDÉ - Risque trop élevé pour le profil"
   end%string).
Proof.
  intros Hi r. subst r.
  rewrite (calculer_score_risque_recommandation p).
  destruct (calculer_score_risque_fields p) as (_ & _ & _ & _ & _ & _ & _ & -> & _).
  pose proof (score_pondere_bounds p Hi) as [B0 B100].
  split; intros ->; [ reflexivity | ].
  unfold choisir_recommandation, niveau_de_score, SEUILS_RISQUE.
  cbn [chercher_niveau]. unfold inject_Z.
  set (s := score_pondere p) in *.
  destruct (80 <=? s) eqn:E80; py_bool E80;
    destruct (65 <=? s) eqn:E65; py_bool E65; try lra;
    destruct (50 <=? s) eqn:E50; py_bool E50; try lra;
    destruct (35 <=? s) eqn:E35; py_bool E35; try lra;
    destruct (20 <=? s) eqn:E20; py_bool E20; try lra;
    destruct (0 <=? s) eqn:E0; py_bool E0; try lra;
    destruct (s <=? 100) eqn:F100; py_bool F100; try lra;
    cbn [andb]; try reflexivity;
    repeat (py_case; try lra; try reflexivity).
Qed.

Lemma recommandation_selon_niveau_witness :
  recommandation (calculer_score_risque profil_reference) =
  "ACCORD DE PRINCIPE - Dossier éligible sous réserve de vérifications"%string.
Proof.
  assert (H : (0 <= incidents_paiement_12m profil_reference)%Z) by (vm_compute; discriminate).
  destruct (recommandation_selon_niveau profil_reference H) as [_ R].
  rewrite R; reflexivity.
Defined.

(** X9.  The engine does not reject a negative incident count, and the
    history formula then exceeds 100.  When the weighted sum passes 100 no
    band of the table holds it: the tier falls on the default "Critique",
    while the reported score is at least 100 and, without fraud flag, the
    recommendation is the agreement in principle. *)
Theorem niveau_hors_table (p : ProfilClient) :
  100 < score_pondere p ->
  let r := calculer_score_risque p in
  niveau_risque r = CRITIQUE /\
  100 <= score_global r /\
  (incidents_paiement_12m p < 0)%Z /\
  (alerte_fraude r = false ->
   recommandation r =
   "ACCORD DE PRINCIPE - Dossier éligible sous réserve de vérifications"%string).
Proof.
  intros H r. subst r.
  rewrite (calculer_score_risque_recommandation p).
  destruct (calculer_score_risque_fields p) as (_ & _ & _ & _ & _ & _ & -> & -> & _).
  split; [ | split; [ | split ] ].
  - apply niveau_de_score_bandes. right. exact H.
  - change 100 with (inject_Z 100). rewrite <- (round_Z 100 2).
    apply round_mono. change (inject_Z 100) with 100. lra.
  - destruct (Z_lt_le_dec (incidents_paiement_12m p) 0) as [N | N]; [ exact N | ].
    pose proof (score_pondere_bounds p N). lra.
  - intros ->. unfold choisir_recommandation.
    assert (E : (65 <=? score_pondere p) = true) by (apply leb_iff; lra).
    rewrite E. reflexivity.
Qed.

Lemma niveau_hors_table_witness :
  niveau_risque (calculer_score_risque profil_incidents_negatifs) = CRITIQUE /\
  100 <= score_global (calculer_score_risque profil_incidents_negatifs) /\
  (incidents_paiement_12m profil_incidents_negatifs < 0)%Z /\
  (alerte_fraude (calculer_score_risque profil_incidents_negatifs) = false ->
   recommandation (calculer_score_risque profil_incidents_negatifs) =
   "ACCORD DE PRINCIPE - Dossier éligible sous réserve de vérifications"%string).
Proof.
  apply (niveau_hors_table profil_incidents_negatifs). vm_compute. reflexivity.
Defined.

(* ------------------------------------------------------------------ *)
(** ** Installment, debt score and simulator *)

Lemma mensualite_endettement_brute (montant : Q) (duree : Z) :
  mensualite_endettement montant duree = Simulation.mensualite_brute montant duree 0.15.
Proof. reflexivity. Qed.

(** X10.  One installment throughout: the debt-ratio scorer and the
    simulator at the rate 0.15 compute the same unrounded installment for
    every amount and tenor, and for a positive tenor the installment that
    the scoring result gives in its details is the one the simulator
    reports. *)
Theorem mensualite_unique (p : ProfilClient) (revenu charges : Q) :
  mensualite_endettement (montant_demande p) (duree_pret_mois p) =
  Simulation.mensualite_brute (montant_demande p) (duree_pret_mois p) 0.15 /\
  ((0 < duree_pret_mois p)%Z ->
   mensualite_estimee (details (calculer_score_risque p)) =
   Simulation.mensualite
     (Simulation.simuler_pret (montant_demande p) (duree_pret_mois p) 0.15 revenu charges)).
Proof.
  split; [ reflexivity | ].
  intro H.
  assert (D : details (calculer_score_risque p) = calculer_details p).
  { unfold calculer_score_risque.
    destruct (calculer_score_endettement _ _ _ _ _) as [se ratio].
    destruct (calculer_score_coherence p) as [sc ac].
    destruct (calculer_score_fraude p sc) as [sf af]. reflexivity. }
  rewrite D. unfold calculer_details, Simulation.simuler_pret, Simulation.mensualite_brute.
  cbn [mensualite_estimee Simulation.mensualite].
  apply Z.ltb_lt in H. rewrite H. reflexivity.
Qed.

Lemma mensualite_unique_witness :
  mensualite_estimee (details (calculer_score_risque profil_reference)) =
  Simulation.mensualite (Simulation.simuler_pret 5000000 36 0.15 450000 80000).
Proof.
  apply (mensualite_unique profil_reference 450000 80000). reflexivity.
Defined.

Lemma bareme_endettement_70 (ratio : Q) :
  (ratio < 0.33 -> 70 < bareme_endettement ratio) /\
  (0.33 <= ratio -> bareme_endettement ratio <= 70).
Proof.
  unfold bareme_endettement, bande_1, bande_2, bande_3, bande_4, bande_5, Py.max.
  split; intro H; repeat py_case; qconst; lra.
Qed.

(** X11.  Debt score and simulator agree on the 33% line.  With a positive
    income and non-negative charges and debts, a debt score above 70 means
    that the simulator at the rate 0.15 declares the same loan eligible on
    that income; and a loan the simulator declares eligible scores at least
    70 for an applicant who has no charges and no debts. *)
Theorem endettement_et_eligibilite (revenu charges dettes montant : Q) (duree : Z) :
  (0 < revenu -> 0 <= charges -> 0 <= dettes ->
   70 < fst (calculer_score_endettement revenu charges dettes montant duree) ->
   Simulation.eligible (Simulation.simuler_pret montant duree 0.15 revenu charges)
   = Some true) /\
  (Simulation.eligible (Simulation.simuler_pret montant duree 0.15 revenu charges)
   = Some true ->
   70 <= fst (calculer_score_endettement revenu 0 0 montant duree)).
Proof.
  unfold Simulation.simuler_pret. cbn [Simulation.eligible].
  rewrite <- (mensualite_endettement_brute montant duree).
  set (m := mensualite_endettement montant duree).
  split.
  - intros R C D S. rewrite (score_endettement_bareme _ _ _ _ _ R) in S. cbn [fst] in S.
    assert (L : ratio_brut revenu charges dettes montant duree < 0.33).
    { apply Qnot_le_lt. intro G.
      apply (bareme_endettement_70 _) in G.
      apply (round_mono _ _ 2) in G.
      rewrite (round_Z 70 2) in G. change (inject_Z 70) with 70 in G. lra. }
    unfold ratio_brut in L. fold m in L.
    assert (E : (0 <? revenu) = true) by (apply ltb_iff; exact R).
    rewrite E. f_equal. apply ltb_iff.
    apply Qlt_shift_div_r; [ exact R | ].
    assert (K : charges + dettes + m < 0.33 * revenu).
    { apply (Qmult_lt_r _ _ revenu R) in L.
      assert (F : (charges + dettes + m) / revenu * revenu == charges + dettes + m)
        by (field; lra).
      lra. }
    lra.
  - destruct (0 <? revenu) eqn:E; [ | discriminate ].
    intro H. injection H as H. apply ltb_iff in E, H.
    rewrite (score_endettement_bareme _ _ _ _ _ E). cbn [fst].
    assert (L : ratio_brut revenu 0 0 montant duree < 0.33).
    { unfold ratio_brut. fold m.
      assert (F : (0 + 0 + m) / revenu == m / revenu) by (field; lra).
      rewrite F. exact H. }
    apply (bareme_endettement_70 _) in L.
    change 70 with (inject_Z 70). rewrite <- (round_Z 70 2).
    apply round_mono. change (inject_Z 70) with 70. lra.
Qed.

Lemma endettement_et_eligibilite_witness :
  Simulation.eligible (Simulation.simuler_pret 1000000 12 0.15 1000000 100000) = Some true.
Proof.
  apply (endettement_et_eligibilite 1000000 100000 0 1000000 12); try lra.
  vm_compute. reflexivity.
Defined.

(* ------------------------------------------------------------------ *)
(** ** Amortization schedule *)

Lemma boucle_app (n : nat) (k d : Z) (t m cr : Q) (acc : list Simulation.Ligne) :
  Simulation.boucle n k d t m cr acc = acc ++ Simulation.boucle n k d t m cr [].
Proof.
  revert k cr acc. induction n as [ | n IH ]; intros k cr acc; cbn [Simulation.boucle].
  - now rewrite app_nil_r.
  - destruct ((k <=? 3)%Z || (d - 1 <=? k)%Z).
    + rewrite IH. rewrite (IH _ _ ([] ++ _)). cbn [app]. now rewrite <- app_assoc.
    + apply IH.
Qed.

Lemma boucle_mois (n : nat) (k d : Z) (t m cr : Q) :
  map Simulation.mois (Simulation.boucle n k d t m cr []) =
  filter (mois_affiche d) (mois_de k n).
Proof.
  revert k cr. induction n as [ | n IH ]; intros k cr;
    cbn [Simulation.boucle mois_de filter]; [ reflexivity | ].
  unfold mois_affiche at 1.
  destruct ((k <=? 3)%Z || (d - 1 <=? k)%Z).
  - rewrite boucle_app, map_app, IH. reflexivity.
  - apply IH.
Qed.

Lemma boucle_S (n : nat) (k d : Z) (t m cr : Q) (acc : list Simulation.Ligne) :
  Simulation.boucle (S n) k d t m cr acc =
  Simulation.boucle n (k + 1) d t m (cr - (m - cr * t))
    (if mois_affiche d k
     then acc ++
          [ {| Simulation.mois := k;
               Simulation.mensualite_ligne := Py.round m 0;
               Simulation.capital := Py.round (m - cr * t) 0;
               Simulation.interets := Py.round (cr * t) 0;
               Simulation.capital_restant := Py.round (Py.max 0 (cr - (m - cr * t))) 0 |} ]
     else acc).
Proof. reflexivity. Qed.

(** The last month that the loop runs, on the balance reached by then. *)
Lemma boucle_dernier (n : nat) (k d : Z) (t m cr : Q) :
  Simulation.boucle (S n) k d t m cr [] =
  Simulation.boucle n k d t m cr [] ++
  (if mois_affiche d (k + Z.of_nat n)
   then [ {| Simulation.mois := k + Z.of_nat n;
             Simulation.mensualite_ligne := Py.round m 0;
             Simulation.capital := Py.round (m - solde t m cr n * t) 0;
             Simulation.interets := Py.round (solde t m cr n * t) 0;
             Simulation.capital_restant := Py.round (Py.max 0 (solde t m cr (S n))) 0 |} ]
   else []).
Proof.
  revert k cr. induction n as [ | n IH ]; intros k cr.
  - rewrite boucle_S. cbn [Simulation.boucle solde Z.of_nat]. rewrite Z.add_0_r.
    destruct (mois_affiche d k); reflexivity.
  - replace (k + Z.of_nat (S n))%Z with (k + 1 + Z.of_nat n)%Z by lia.
    change (solde t m cr (S (S n))) with (solde t m (cr - (m - cr * t)) (S n)).
    change (solde t m cr (S n)) with (solde t m (cr - (m - cr * t)) n).
    rewrite (boucle_S (S n) k d t m cr []).
    match goal with |- Simulation.boucle _ _ _ _ _ _ ?A = _ => set (debut := A) end.
    rewrite (boucle_app (S n) (k + 1) d t m _ debut).
    rewrite (IH (k + 1)%Z (cr - (m - cr * t))).
    rewrite (boucle_S n k d t m cr []). fold debut.
    rewrite (boucle_app n (k + 1) d t m _ debut).
    now rewrite <- app_assoc.
Qed.

(** What every row that the loop writes has in common. *)
Lemma boucle_lignes (P : Simulation.Ligne -> Prop) (n : nat) (k d : Z) (t m cr : Q)
    (acc : list Simulation.Ligne) :
  (forall l : Simulation.Ligne,
     Simulation.mensualite_ligne l = Py.round m 0 ->
     (exists x : Q, Simulation.capital_restant l = Py.round (Py.max 0 x) 0) ->
     P l) ->
  Forall P acc -> Forall P (Simulation.boucle n k d t m cr acc).
Proof.
  intro H. revert k cr acc. induction n as [ | n IH ]; intros k cr acc A.
  - exact A.
  - rewrite boucle_S. apply IH.
    destruct (mois_affiche d k); [ | exact A ].
    apply Forall_app. split; [ exact A | ].
    constructor; [ | constructor ].
    apply H; [ reflexivity | eexists; reflexivity ].
Qed.

(** X12.  Every row of the schedule repeats the installment that the
    simulator reports and shows a remaining balance that is not negative;
    with a tenor of one month or more the schedule is not empty and ends on
    the row of the last month. *)
Theorem amortissement_lignes (montant : Q) (duree_mois : Z)
    (taux_annuel revenu_mensuel charges : Q) :
  let r := Simulation.simuler_pret montant duree_mois taux_annuel revenu_mensuel charges in
  Forall (fun l => Simulation.mensualite_ligne l = Simulation.mensualite r /\
                   0 <= Simulation.capital_restant l)
         (Simulation.amortissement r) /\
  ((1 <= duree_mois)%Z ->
   exists (debut : list Simulation.Ligne) (derniere : Simulation.Ligne),
     Simulation.amortissement r = debut ++ [derniere] /\
     Simulation.mois derniere = duree_mois).
Proof.
  intro r. subst r. unfold Simulation.simuler_pret.
  cbn [Simulation.amortissement Simulation.mensualite]. split.
  - apply boucle_lignes; [ | constructor ].
    intros l M [x X]. split; [ exact M | ].
    rewrite X. apply (Qle_trans _ (Py.round 0 0)); [ vm_compute; discriminate | ].
    apply round_mono.
    destruct (max_spec 0 x) as [[? ->] | [? ->]]; lra.
  - intro D.
    destruct (Z.to_nat duree_mois) as [ | n ] eqn:N; [ lia | ].
    rewrite boucle_dernier.
    assert (A : mois_affiche duree_mois (1 + Z.of_nat n) = true)
      by (unfold mois_affiche; lia).
    rewrite A. eexists. eexists. split; [ reflexivity | ].
    cbn [Simulation.mois]. lia.
Qed.

Lemma amortissement_lignes_witness :
  exists (debut : list Simulation.Ligne) (derniere : Simulation.Ligne),
    Simulation.amortissement (Simulation.simuler_pret 5000000 36 0.15 450000 80000)
    = debut ++ [derniere] /\
    Simulation.mois derniere = 36%Z.
Proof.
  apply (amortissement_lignes 5000000 36 0.15 450000 80000). lia.
Defined.

Lemma mois_de_app (k : Z) (a b : nat) :
  mois_de k (a + b) = mois_de k a ++ mois_de (k + Z.of_nat a) b.
Proof.
  revert k. induction a as [ | a IH ]; intro k.
  - cbn [Nat.add mois_de app Z.of_nat]. now rewrite Z.add_0_r.
  - cbn [Nat.add mois_de app]. rewrite IH.
    replace (k + 1 + Z.of_nat a)%Z with (k + Z.of_nat (S a))%Z by lia. reflexivity.
Qed.

Lemma filter_mois_tous (d k : Z) (n : nat) :
  (forall j : Z, (k <= j < k + Z.of_nat n)%Z -> mois_affiche d j = true) ->
  filter (mois_affiche d) (mois_de k n) = mois_de k n.
Proof.
  revert k. induction n as [ | n IH ]; intros k H; cbn [mois_de filter]; [ reflexivity | ].
  rewrite (H k) by lia. f_equal. apply IH. intros j Hj. apply H. lia.
Qed.

Lemma filter_mois_aucun (d k : Z) (n : nat) :
  (forall j : Z, (k <= j < k + Z.of_nat n)%Z -> mois_affiche d j = false) ->
  filter (mois_affiche d) (mois_de k n) = [].
Proof.
  revert k. induction n as [ | n IH ]; intros k H; cbn [mois_de filter]; [ reflexivity | ].
  rewrite (H k) by lia. apply IH. intros j Hj. apply H. lia.
Qed.

(** X13.  The schedule is the partial one, whatever the rate and the
    amount: for a tenor of 5 months or more it has the rows of months 1, 2,
    3 and of the last two months, in that order; for a shorter tenor it has
    one row per month; for a tenor of 0 or less it is empty. *)
Theorem amortissement_mois (montant : Q) (duree_mois : Z)
    (taux_annuel revenu_mensuel charges : Q) :
  let lignes :=
    Simulation.amortissement
      (Simulation.simuler_pret montant duree_mois taux_annuel revenu_mensuel charges) in
  ((5 <= duree_mois)%Z ->
   map Simulation.mois lignes = [1; 2; 3; duree_mois - 1; duree_mois]%Z) /\
  ((0 <= duree_mois <= 5)%Z ->
   map Simulation.mois lignes = mois_de 1 (Z.to_nat duree_mois)) /\
  ((duree_mois <= 0)%Z -> lignes = []).
Proof.
  intro lignes. subst lignes. unfold Simulation.simuler_pret.
  cbn [Simulation.amortissement].
  split; [ | split ].
  - intro H. rewrite boucle_mois.
    replace (Z.to_nat duree_mois) with (3 + ((Z.to_nat duree_mois - 5) + 2))%nat by lia.
    rewrite mois_de_app, mois_de_app, !filter_app.
    rewrite (filter_mois_tous duree_mois 1 3) by (intros j Hj; unfold mois_affiche; lia).
    rewrite filter_mois_aucun by (intros j Hj; unfold mois_affiche; lia).
    rewrite filter_mois_tous by (intros j Hj; unfold mois_affiche; lia).
    replace (1 + Z.of_nat 3 + Z.of_nat (Z.to_nat duree_mois - 5))%Z
      with (duree_mois - 1)%Z by lia.
    cbn [mois_de app].
    replace (duree_mois - 1 + 1)%Z with duree_mois by lia. reflexivity.
  - intro H. rewrite boucle_mois.
    apply filter_mois_tous. intros j Hj. unfold mois_affiche. lia.
  - intro H. replace (Z.to_nat duree_mois) with 0%nat by lia. reflexivity.
Qed.

Lemma amortissement_mois_witness :
  map Simulation.mois
    (Simulation.amortissement (Simulation.simuler_pret 5000000 36 0.15 450000 80000))
  = [1; 2; 3; 35; 36]%Z.
Proof.
  apply (amortissement_mois 5000000 36 0.15 450000 80000). lia.
Defined.

(* ------------------------------------------------------------------ *)
(** ** Explanation generator *)

Section Tri.

Import Explication.

Let ordre (x y : Facteur) : Prop := (cle x <= cle y)%Z.

Lemma inserer_permutation (x : Facteur) (l : list Facteur) :
  Permutation (inserer x l) (x :: l).
Proof.
  induction l as [ | y l IH ]; cbn [inserer]; [ reflexivity | ].
  destruct (cle x <=? cle y)%Z; [ reflexivity | ].
  rewrite IH. apply perm_swap.
Qed.

Lemma trier_permutation (l : list Facteur) : Permutation (trier l) l.
Proof.
  induction l as [ | x l IH ]; cbn [trier]; [ reflexivity | ].
  rewrite inserer_permutation. now constructor.
Qed.

Lemma inserer_sorted (x : Facteur) (l : list Facteur) :
  StronglySorted ordre l -> StronglySorted ordre (inserer x l).
Proof.
  induction 1 as [ | y l S IH F ]; cbn [inserer].
  - repeat constructor.
  - destruct (cle x <=? cle y)%Z eqn:E.
    + apply Z.leb_le in E. constructor; [ now constructor | ].
      constructor; [ exact E | ].
      eapply Forall_impl; [ | exact F ]. unfold ordre. intros z Hz. lia.
    + apply Z.leb_gt in E. constructor; [ exact IH | ].
      rewrite inserer_permutation.
      constructor; [ unfold ordre; lia | exact F ].
Qed.

Lemma trier_sorted (l : list Facteur) : StronglySorted ordre (trier l).
Proof.
  induction l as [ | x l IH ]; cbn [trier]; [ constructor | ].
  now apply inserer_sorted.
Qed.

Lemma inserer_stable (k : Z) (x : Facteur) (l : list Facteur) :
  filter (fun y => (cle y =? k)%Z) (inserer x l) =
  filter (fun y => (cle y =? k)%Z) (x :: l).
Proof.
  induction l as [ | y l IH ]; cbn [inserer]; [ reflexivity | ].
  destruct (cle x <=? cle y)%Z eqn:E; [ reflexivity | ].
  apply Z.leb_gt in E. cbn [filter] in *. rewrite IH.
  destruct (cle y =? k)%Z eqn:Y; destruct (cle x =? k)%Z eqn:X; try reflexivity.
  apply Z.eqb_eq in X, Y. lia.
Qed.

Lemma trier_stable (k : Z) (l : list Facteur) :
  filter (fun y => (cle y =? k)%Z) (trier l) = filter (fun y => (cle y =? k)%Z) l.
Proof.
  induction l as [ | x l IH ]; cbn [trier]; [ reflexivity | ].
  rewrite inserer_stable. cbn [filter]. now rewrite IH.
Qed.

End Tri.

Ltac notes_unfold :=
  unfold Explication.notes, Explication.noter_fraude, Explication.noter_coherence,
    Explication.noter_stabilite, Explication.noter_historique,
    Explication.noter_endettement.

Lemma notes_facteurs (str_float : Q -> string) (p : ProfilClient)
    (se sh ss sc ratio sf : Q) :
  (length (fst (Explication.notes str_float p se sh ss sc ratio sf)) <= 4)%nat /\
  NoDup (map Explication.facteur (fst (Explication.notes str_float p se sh ss sc ratio sf))).
Proof.
  notes_unfold.
  repeat py_case; cbn [fst app map length Explication.facteur];
    (split; [ lia | ]);
    repeat (constructor; [ cbn [In]; intuition discriminate | ]); constructor.
Qed.

(** X15.  The factors of the explanation come out ordered by severity (very
    negative, negative, positive, very positive), factors of one severity in
    the order endettement, historique, stabilité, cohérence; nothing is lost
    or added by the sort; there are at most four of them and no component
    appears twice. *)
Theorem facteurs_tries (str_float : Q -> string) (p : ProfilClient)
    (se sh ss sc ratio sg sf : Q) :
  let collectes := fst (Explication.notes str_float p se sh ss sc ratio sf) in
  let facteurs := snd (Explication.generer_explication str_float p se sh ss sc ratio sg sf) in
  StronglySorted (fun x y => (Explication.cle x <= Explication.cle y)%Z) facteurs /\
  Permutation facteurs collectes /\
  (forall k : Z,
     filter (fun x => (Explication.cle x =? k)%Z) facteurs =
     filter (fun x => (Explication.cle x =? k)%Z) collectes) /\
  (length facteurs <= 4)%nat /\
  NoDup (map Explication.facteur facteurs).
Proof.
  intros collectes facteurs. subst collectes facteurs.
  pose proof (notes_facteurs str_float p se sh ss sc ratio sf) as [L N].
  unfold Explication.generer_explication.
  destruct (Explication.notes str_float p se sh ss sc ratio sf) as [fs es].
  cbn [fst snd] in *.
  pose proof (trier_permutation fs) as P.
  split; [ apply trier_sorted | split; [ exact P | split; [ | split ] ] ].
  - intro k. apply trier_stable.
  - rewrite (Permutation_length P). exact L.
  - apply (Permutation_NoDup (l := map Explication.facteur fs)); [ | exact N ].
    apply Permutation_map. symmetry. exact P.
Qed.

Lemma raisons_vides (str_float : Q -> string) (p : ProfilClient)
    (se sh ss sc ratio sf : Q) :
  (snd (Explication.notes str_float p se sh ss sc ratio sf) = [] <->
   (60 <= se /\ 50 <= sh /\ 45 <= ss /\ 50 <= sc /\ sf < 50)) /\
  (length (snd (Explication.notes str_float p se sh ss sc ratio sf)) <= 5)%nat.
Proof.
  notes_unfold.
  repeat py_case; cbn [snd app length];
    (split; [ split; [ intro H | intros (H1 & H2 & H3 & H4 & H5) ]
            | rewrite ?length_app; cbn [length]; lia ]);
    first [ discriminate H
          | reflexivity
          | repeat split; lra
          | exfalso; lra ].
Qed.

(** X16.  The narrative is the lead sentence alone exactly when no component
    is in its negative range and the fraud score is below 50: debt score at
    least 60, history at least 50, stability at least 45, coherence at least
    50.  Otherwise the lead sentence is followed by one bullet per reason.
    A history score from 50 up to 75 is listed as a negative factor and
    still adds no reason. *)
Theorem explication_sans_puce (str_float : Q -> string) (p : ProfilClient)
    (se sh ss sc ratio sg sf : Q) :
  let raisons := snd (Explication.notes str_float p se sh ss sc ratio sf) in
  let texte := fst (Explication.generer_explication str_float p se sh ss sc ratio sg sf) in
  (raisons = [] <-> (60 <= se /\ 50 <= sh /\ 45 <= ss /\ 50 <= sc /\ sf < 50)) /\
  (raisons = [] -> texte = Explication.intro sg) /\
  (raisons <> [] ->
   texte = (Explication.intro sg ++ Explication.PUCE
            ++ String.concat Explication.PUCE raisons)%string) /\
  (length raisons <= 5)%nat.
Proof.
  intros raisons texte. subst raisons texte.
  unfold Explication.generer_explication.
  pose proof (raisons_vides str_float p se sh ss sc ratio sf) as C.
  destruct C as [C N].
  destruct (Explication.notes str_float p se sh ss sc ratio sf) as [fs es].
  cbn [fst snd] in *.
  split; [ exact C | split; [ | split; [ | exact N ] ] ].
  - intros ->. reflexivity.
  - intro H. destruct es as [ | e es ]; [ contradiction | reflexivity ].
Qed.

(** X17.  When the global score is below 50 the lead sentence ends on a
    colon and announces reasons; the engine then always has at least one
    reason to list, because four component scores outside their negative
    ranges weigh 52.5 at least. *)
Theorem raisons_annoncees (str_float : Q -> string) (p : ProfilClient) :
  score_pondere p < 50 ->
  let r := calculer_score_risque p in
  let raisons :=
    snd (Explication.notes str_float p (score_endettement r) (score_historique r)
           (score_stabilite r) (score_coherence r) (ratio_endettement r)
           (score_fraude r)) in
  raisons <> [] /\
  fst (Explication.expliquer str_float p) =
  (Explication.intro (score_pondere p) ++ Explication.PUCE
   ++ String.concat Explication.PUCE raisons)%string.
Proof.
  intros H r raisons. subst raisons.
  unfold Explication.expliquer, Explication.generer_explication. fold r.
  pose proof (raisons_vides str_float p (score_endettement r) (score_historique r)
                (score_stabilite r) (score_coherence r) (ratio_endettement r)
                (score_fraude r)) as [C _].
  assert (N : snd (Explication.notes str_float p (score_endettement r)
                     (score_historique r) (score_stabilite r) (score_coherence r)
                     (ratio_endettement r) (score_fraude r)) <> []).
  { intro E. apply C in E. destruct E as (E1 & E2 & E3 & E4 & _).
    unfold score_pondere in H. fold r in H. rewrite somme_ponderee_eq in H. lra. }
  split; [ exact N | ].
  destruct (Explication.notes str_float p (score_endettement r) (score_historique r)
              (score_stabilite r) (score_coherence r) (ratio_endettement r)
              (score_fraude r)) as [fs es].
  cbn [fst snd] in *. destruct es as [ | e es ]; [ contradiction | reflexivity ].
Qed.

Lemma raisons_annoncees_witness :
  let r := calculer_score_risque profil_sans_revenu in
  snd (Explication.notes (fun _ => EmptyString) profil_sans_revenu
         (score_endettement r) (score_historique r) (score_stabilite r)
         (score_coherence r) (ratio_endettement r) (score_fraude r)) <> [].
Proof.
  apply (raisons_annoncees (fun _ => EmptyString) profil_sans_revenu).
  vm_compute. reflexivity.
Defined.

(* ------------------------------------------------------------------ *)
(** ** Reading the result back *)

Lemma prefix_append (s t : string) : String.prefix s (s ++ t) = true.
Proof.
  induction s as [ | c s IH ]; cbn [String.prefix String.append].
  - destruct t; reflexivity.
  - destruct (ascii_dec c c) as [ _ | N ]; [ exact IH | contradiction ].
Qed.

Lemma coherence_sans_marqueur (p : ProfilClient) :
  Forall sans_marqueur (snd (calculer_score_coherence p)).
Proof.
  unfold calculer_score_coherence, coherence_etat, coherence_age, coherence_duree,
    coherence_revenu, coherence_seuil.
  repeat py_case; cbn [snd app]; repeat constructor; reflexivity.
Qed.

Lemma filter_aucun {A : Type} (f : A -> bool) (l : list A) :
  Forall (fun x => f x = false) l -> filter f l = [].
Proof.
  induction 1 as [ | x l H _ IH ]; cbn [filter]; [ reflexivity | ].
  now rewrite H.
Qed.

Lemma filter_tous {A : Type} (f : A -> bool) (l : list A) :
  Forall (fun x => f x = true) l -> filter f l = l.
Proof.
  induction 1 as [ | x l H _ IH ]; cbn [filter]; [ reflexivity | ].
  now rewrite H, IH.
Qed.

(** X18.  The merge of the alerts can be undone: in the alert list of the
    result, the alerts that start with "🔍 FRAUDE: " are the fraud alerts
    with their prefix, in their order, and nothing else; no coherence
    alert, debt-ratio alert or incident alert starts with the marker. *)
Theorem alertes_fraude_retrouvees (p : ProfilClient) :
  let r := calculer_score_risque p in
  filter (String.prefix PREFIXE_FRAUDE) (alertes r) =
  map (String.append PREFIXE_FRAUDE) (snd (calculer_score_fraude p (score_coherence r))).
Proof.
  intro r. subst r.
  destruct (calculer_score_risque_fields p)
    as (_ & _ & _ & _ & -> & _ & _ & _ & -> & _).
  unfold assembler_alertes. rewrite ajouter_alertes_fraude_map.
  rewrite filter_app.
  match goal with |- filter _ ?debut ++ _ = _ =>
    assert (D : Forall sans_marqueur debut) end.
  { pose proof (coherence_sans_marqueur p) as C.
    repeat py_case; rewrite ?Forall_app; repeat split;
      try exact C; repeat constructor; reflexivity. }
  rewrite (filter_aucun _ _ D). cbn [app].
  apply filter_tous. apply Forall_map. apply Forall_forall.
  intros af _. apply prefix_append.
Qed.

(* ------------------------------------------------------------------ *)
(** ** to_dict *)

Lemma round_round (x : Q) (n : nat) : Py.round (Py.round x n) n = Py.round x n.
Proof.
  unfold Py.round at 1 3. do 2 f_equal.
  set (k := Py.round_half_even (x * inject_Z (Py.pow10 n))).
  transitivity (Py.round_half_even (inject_Z k)); [ | apply round_half_even_Z ].
  apply round_half_even_comp.
  unfold Py.round. fold k. pose proof (inject_pow10_pos n). field. lra.
Qed.

(** A number with at most [n] decimals is left as it is. *)
Lemma round_decimal (x : Q) (k : Z) (n : nat) :
  x * inject_Z (Py.pow10 n) == inject_Z k -> Py.round x n == x.
Proof.
  intro H. unfold Py.round.
  rewrite (round_half_even_comp _ _ H), round_half_even_Z, <- H.
  pose proof (inject_pow10_pos n). field. lra.
Qed.

Lemma score_historique_decimal (i : Z) :
  Py.round (calculer_score_historique i) 2 == calculer_score_historique i.
Proof.
  unfold calculer_score_historique.
  repeat py_case; try (vm_compute; reflexivity).
  destruct (max_spec 0 (10 - inject_Z (i - 4) * 2.5)) as [[_ ->] | [_ ->]];
    [ | vm_compute; reflexivity ].
  apply (round_decimal _ (1000 - 250 * (i - 4))).
  change (inject_Z (Py.pow10 2)) with 100.
  unfold Zminus.
  repeat first [ rewrite inject_Z_plus | rewrite inject_Z_mult | rewrite inject_Z_opp ].
  change (inject_Z 1000) with 1000. change (inject_Z 250) with 250.
  change (inject_Z 4) with 4. qconst. ring.
Qed.

(** X19.  [to_dict] rounds the scores a second time and changes none of
    them: every score of a scoring result already has 2 decimals at most,
    the ratio 4.  The tier is written as its label, and the six labels are
    distinct, so the tier can be read back from the dictionary. *)
Theorem to_dict_fidele (p : ProfilClient) :
  let r := calculer_score_risque p in
  let d := to_dict r in
  cle_score_global d == score_global r /\
  cle_score_endettement d == score_endettement r /\
  cle_score_historique d == score_historique r /\
  cle_score_stabilite d == score_stabilite r /\
  cle_score_coherence d == score_coherence r /\
  cle_score_fraude d == score_fraude r /\
  cle_ratio_endettement d == ratio_endettement r /\
  (forall a b : RiskLevel, RiskLevel_value a = RiskLevel_value b -> a = b).
Proof.
  intros r d. subst r d. unfold to_dict.
  cbn [cle_score_global cle_score_endettement cle_score_historique cle_score_stabilite
       cle_score_coherence cle_score_fraude cle_ratio_endettement].
  destruct (calculer_score_risque_fields p)
    as (-> & -> & -> & -> & -> & -> & -> & _).
  repeat split.
  - now rewrite round_round.
  - unfold calculer_score_endettement. py_case; cbn [fst];
      [ vm_compute; reflexivity | now rewrite round_round ].
  - apply score_historique_decimal.
  - unfold calculer_score_stabilite. now rewrite round_round.
  - unfold calculer_score_coherence. destruct (coherence_etat p). cbn [fst].
    now rewrite round_round.
  - unfold calculer_score_fraude.
    destruct (fraude_etat p (fst (calculer_score_coherence p))). cbn [fst].
    now rewrite round_round.
  - unfold calculer_score_endettement. py_case; cbn [snd];
      [ vm_compute; reflexivity | now rewrite round_round ].
  - intros a b H. destruct a, b; first [ reflexivity | discriminate H ].
Qed.

(* ------------------------------------------------------------------ *)
(** ** Client age *)

(** X20.  The age of a client is the number of birthdays reached: the
    birthday of that rank is today or earlier, the next one is still to
    come.  Without a birth date the age is 30. *)
Theorem age_anniversaires (naissance today : Client.Date) :
  Client.date_le (Client.anniversaire naissance (Client.age (Some naissance) today)) today /\
  ~ Client.date_le
      (Client.anniversaire naissance (Client.age (Some naissance) today + 1)) today /\
  Client.age None today = 30%Z.
Proof.
  unfold Client.date_le, Client.anniversaire, Client.age, Client.tuple_lt.
  cbn [Client.year Client.month Client.day].
  destruct (Client.month today =? Client.month naissance)%Z eqn:M;
    [ destruct (Client.day today <? Client.day naissance)%Z eqn:D
    | destruct (Client.month today <? Client.month naissance)%Z eqn:D ];
    repeat split; try lia.
Qed.

(* ------------------------------------------------------------------ *)
(** ** Workflow of a loan file *)

Lemma transitions_cas (d : Dossier.DossierPret) (e : string) :
  Dossier.dans e (Dossier.transitions_possibles d) = true ->
  ((Dossier.etat d = "soumis" /\ (e = "en_analyse" \/ e = "alerte_fraude")) \/
   (Dossier.etat d = "en_analyse" /\ (e = "valide" \/ e = "refuse" \/ e = "alerte_fraude")) \/
   (Dossier.etat d = "alerte_fraude" /\ (e = "en_analyse" \/ e = "refuse")))%string.
Proof.
  unfold Dossier.transitions_possibles, Py.dict_get_default, Dossier.transitions.
  cbn [Py.dict_get].
  repeat match goal with
         | |- context [ String.eqb ?a (Dossier.etat d) ] =>
             let E := fresh "E" in
             destruct (String.eqb a (Dossier.etat d)) eqn:E;
             [ apply String.eqb_eq in E; symmetry in E | ]
         end;
    unfold Dossier.dans; cbn [existsb]; rewrite ?orb_false_r, ?orb_true_iff;
    rewrite ?String.eqb_eq; intro H; try discriminate; intuition.
Qed.

(** X21.  What one call does to a file.  A refused request returns False
    and leaves the file as it was.  An accepted one follows the table (from
    "soumis" to "en_analyse" or "alerte_fraude", from "en_analyse" to
    "valide", "refuse" or "alerte_fraude", from "alerte_fraude" to
    "en_analyse" or "refuse"), never leads to "soumis", stores the motive,
    and stamps the analysis date on entering "en_analyse", the decision date
    otherwise. *)
Theorem changer_etat_effet (d : Dossier.DossierPret) (e motif : string) (t : Z) :
  let res := Dossier.changer_etat_dossier d e motif t in
  (fst res = false -> snd res = d) /\
  (fst res = true ->
   Dossier.etat (snd res) = e /\
   Dossier.motif_decision (snd res) = motif /\
   e <> "soumis"%string /\
   ((Dossier.etat d = "soumis" /\ (e = "en_analyse" \/ e = "alerte_fraude")) \/
    (Dossier.etat d = "en_analyse" /\ (e = "valide" \/ e = "refuse" \/ e = "alerte_fraude")) \/
    (Dossier.etat d = "alerte_fraude" /\ (e = "en_analyse" \/ e = "refuse")))%string /\
   (e = "en_analyse"%string ->
    Dossier.date_analyse (snd res) = Some t /\
    Dossier.date_decision (snd res) = Dossier.date_decision d) /\
   (e <> "en_analyse"%string ->
    Dossier.date_decision (snd res) = Some t /\
    Dossier.date_analyse (snd res) = Dossier.date_analyse d)).
Proof.
  intro res. subst res. unfold Dossier.changer_etat_dossier.
  destruct (Dossier.dans e (Dossier.transitions_possibles d)) eqn:A; cbn [negb fst snd].
  - split; [ discriminate | intros _ ].
    pose proof (transitions_cas d e A) as C.
    cbn [Dossier.etat Dossier.motif_decision Dossier.date_analyse Dossier.date_decision].
    split; [ reflexivity | split; [ reflexivity | split; [ | split; [ exact C | split ] ] ] ].
    + intros ->. destruct C as [[_ [C | C]] | [[_ [C | [C | C]]] | [_ [C | C]]]];
        discriminate C.
    + intros ->. split; reflexivity.
    + intro N. apply String.eqb_neq in N. rewrite N.
      destruct C as [[_ [-> | ->]] | [[_ [-> | [-> | ->]]] | [_ [-> | ->]]]];
        try discriminate N; split; reflexivity.
  - split; [ reflexivity | discriminate ].
Qed.

(** X22.  "valide" and "refuse" are final: whatever requests follow, in any
    number, each is refused and the file stays as it is. *)
Theorem etat_final (d : Dossier.DossierPret) (demandes : list (string * string * Z)) :
  Dossier.etat d = "valide"%string \/ Dossier.etat d = "refuse"%string ->
  Dossier.appliquer d demandes = d /\
  Forall (fun dem => let '(e, motif, t) := dem in
                     Dossier.changer_etat_dossier d e motif t = (false, d)) demandes.
Proof.
  intro F.
  assert (R : forall e motif t, Dossier.changer_etat_dossier d e motif t = (false, d)).
  { intros e motif t. unfold Dossier.changer_etat_dossier, Dossier.transitions_possibles.
    destruct F as [-> | ->]; reflexivity. }
  split.
  - induction demandes as [ | [[e motif] t] reste IH ]; cbn [Dossier.appliquer];
      [ reflexivity | ].
    rewrite R. exact IH.
  - apply Forall_forall. intros [[e motif] t] _. apply R.
Qed.

Lemma etat_final_witness :
  Dossier.appliquer
    {| Dossier.etat := "valide"; Dossier.motif_decision := "Dossier complet";
       Dossier.date_analyse := Some 100%Z; Dossier.date_decision := Some 200%Z |}
    [ ("en_analyse", "Réouverture", 300%Z); ("refuse", "Erreur", 400%Z) ]%string
  = {| Dossier.etat := "valide"; Dossier.motif_decision := "Dossier complet";
       Dossier.date_analyse := Some 100%Z; Dossier.date_decision := Some 200%Z |}.
Proof.
  apply etat_final. left. reflexivity.
Defined.

(* ------------------------------------------------------------------ *)
(** ** The properties above on sample inputs *)

Lemma coherence_sans_alerte_witness :
  fst (calculer_score_coherence profil_reference) == 100 /\
  fst (calculer_score_coherence profil_cinq_regles) <= 90.
Proof.
  split.
  - apply (coherence_sans_alerte profil_reference). reflexivity.
  - apply (coherence_sans_alerte profil_cinq_regles). vm_compute. discriminate.
Defined.

Lemma explication_sans_puce_witness :
  fst (Explication.generer_explication (fun _ => EmptyString) profil_reference
         70 100 83.33 100 0.3 83.5 0)
  = Explication.intro 83.5.
Proof.
  destruct (explication_sans_puce (fun _ => EmptyString) profil_reference
              70 100 83.33 100 0.3 83.5 0) as (V & T & _).
  apply T. apply V. repeat split; lra.
Defined.

Lemma changer_etat_effet_witness :
  Dossier.etat
    (snd (Dossier.changer_etat_dossier
            {| Dossier.etat := "soumis"; Dossier.motif_decision := EmptyString;
               Dossier.date_analyse := None; Dossier.date_decision := None |}
            "en_analyse" "Prise en charge" 100)) = "en_analyse"%string /\
  snd (Dossier.changer_etat_dossier
         {| Dossier.etat := "soumis"; Dossier.motif_decision := EmptyString;
            Dossier.date_analyse := None; Dossier.date_decision := None |}
         "valide" "Trop vite" 100)
  = {| Dossier.etat := "soumis"; Dossier.motif_decision := EmptyString;
       Dossier.date_analyse := None; Dossier.date_decision := None |}.
Proof.
  split.
  - apply (changer_etat_effet _ "en_analyse" "Prise en charge" 100). reflexivity.
  - apply (changer_etat_effet _ "valide" "Trop vite" 100). reflexivity.
Defined.

(* ------------------------------------------------------------------ *)
(** ** Displayed ratio and eligibility *)

(** Half a unit below an even integer, and up to it, rounds to it. *)
Lemma round_half_even_vers (y : Q) (k : Z) :
  Z.even k = true -> inject_Z k - (1 # 2) <= y -> y < inject_Z k ->
  Py.round_half_even y = k.
Proof.
  intros Ev L U.
  assert (I : inject_Z (k - 1) == inject_Z k - 1).
  { unfold Zminus. rewrite inject_Z_plus, inject_Z_opp. change (inject_Z 1) with 1. ring. }
  assert (F : Qfloor y = (k - 1)%Z).
  { apply Qfloor_unique.
    - rewrite I. lra.
    - replace (k - 1 + 1)%Z with k by lia. exact U. }
  unfold Py.round_half_even. rewrite F.
  assert (Od : Z.even (k - 1) = false).
  { rewrite Z.even_sub, Ev. reflexivity. }
  rewrite Od.
  destruct (Qcompare_spec (y - inject_Z (k - 1)) (1 # 2)); try lia; lra.
Qed.

(** X23.  The simulator decides the eligibility on the unrounded ratio and
    reports the ratio as a percentage rounded to 1 decimal: a ratio from
    0.3295 up to, and short of, 0.33 is reported as 33.0 % and declared
    eligible, although eligibility asks for less than 33 %. *)
Theorem ratio_affiche_33 (montant : Q) (duree_mois : Z)
    (taux_annuel revenu_mensuel charges : Q) :
  0 < revenu_mensuel ->
  0.3295 <= Simulation.mensualite_brute montant duree_mois taux_annuel / revenu_mensuel ->
  Simulation.mensualite_brute montant duree_mois taux_annuel / revenu_mensuel < 0.33 ->
  let r := Simulation.simuler_pret montant duree_mois taux_annuel revenu_mensuel charges in
  Simulation.eligible r = Some true /\ Simulation.ratio_endettement r == 33.
Proof.
  intros R L U r. subst r. unfold Simulation.simuler_pret.
  cbn [Simulation.eligible Simulation.ratio_endettement].
  set (x := Simulation.mensualite_brute montant duree_mois taux_annuel / revenu_mensuel) in *.
  assert (E : (0 <? revenu_mensuel) = true) by (apply ltb_iff; exact R).
  rewrite E. split.
  - f_equal. apply ltb_iff. exact U.
  - unfold Py.round. change (inject_Z (Py.pow10 1)) with 10.
    rewrite (round_half_even_vers (x * 100 * 10) 330);
      [ reflexivity | reflexivity | | ];
      change (inject_Z 330) with 330; lra.
Qed.

Lemma ratio_affiche_33_witness :
  Simulation.eligible (Simulation.simuler_pret 3296000 10 0 1000000 0) = Some true /\
  Simulation.ratio_endettement (Simulation.simuler_pret 3296000 10 0 1000000 0) == 33.
Proof.
  apply (ratio_affiche_33 3296000 10 0 1000000 0);
    [ lra | vm_compute; discriminate | vm_compute; reflexivity ].
Defined.

(* ------------------------------------------------------------------ *)
(** ** Alerts and factors of one result *)

Lemma ratio_critique_score (p : ProfilClient) :
  0.50 < ratio_endettement (calculer_score_risque p) ->
  score_endettement (calculer_score_risque p) < 40.
Proof.
  destruct (calculer_score_risque_fields p) as (-> & -> & _).
  unfold calculer_score_endettement.
  destruct (revenu_mensuel p <=? 0) eqn:R; cbn [fst snd]; [ intros _; lra | ].
  set (rb := ratio_brut _ _ _ _ _). intro H.
  assert (B : 0.50 < rb).
  { apply Qnot_le_lt. intro L. apply (round_mono _ _ 4) in L.
    assert (E : Py.round 0.50 4 == 0.50) by (vm_compute; reflexivity). lra. }
  pose proof (bareme_endettement_pente 0.50 rb (Qlt_le_weak _ _ B)) as [P _].
  assert (V : bareme_endettement 0.50 <= 32) by (vm_compute; discriminate).
  assert (S : Py.round (bareme_endettement rb) 2 <= 32).
  { change 32 with (inject_Z 32). rewrite <- (round_Z 32 2). apply round_mono.
    change (inject_Z 32) with 32. lra. }
  lra.
Qed.

Lemma incidents_score (i : Z) : (3 <= i)%Z -> calculer_score_historique i < 50.
Proof.
  intro H. destruct (Z.eq_dec i 3) as [-> | N]; [ vm_compute; reflexivity | ].
  rewrite historique_queue by lia.
  assert (L : 0 <= inject_Z (i - 4)).
  { change 0 with (inject_Z 0). apply inject_Z_le. lia. }
  destruct (max_spec 0 (10 - inject_Z (i - 4) * 2.5)) as [[_ ->] | [_ ->]]; lra.
Qed.

Lemma notes_endettement_critique (str_float : Q -> string) (p : ProfilClient)
    (se sh ss sc ratio sf : Q) :
  se < 40 ->
  exists f : Explication.Facteur,
    In f (fst (Explication.notes str_float p se sh ss sc ratio sf)) /\
    Explication.facteur f = "Ratio d'endettement"%string /\
    Explication.impact f = "très négatif"%string /\
    Explication.score f = se.
Proof.
  intro H. apply ltb_iff in H. notes_unfold. rewrite H.
  repeat py_case; cbn [fst app]; eexists;
    (split; [ left; reflexivity | repeat split ]).
Qed.

Lemma notes_historique_critique (str_float : Q -> string) (p : ProfilClient)
    (se sh ss sc ratio sf : Q) :
  sh < 50 ->
  exists f : Explication.Facteur,
    In f (fst (Explication.notes str_float p se sh ss sc ratio sf)) /\
    Explication.facteur f = "Historique de paiement"%string /\
    Explication.impact f = "très négatif"%string /\
    Explication.score f = sh.
Proof.
  intro H. apply ltb_iff in H. notes_unfold. rewrite H.
  repeat py_case; cbn [fst app]; eexists;
    first [ solve [ split; [ left; reflexivity | repeat split ] ]
          | solve [ split; [ right; left; reflexivity | repeat split ] ] ].
Qed.

(** X24.  Alerts and explanation of one result tell the same story: when
    the debt-ratio alert is raised (reported ratio above 0.50) the debt
    score is below 40 and the factors hold "Ratio d'endettement" as very
    negative; when the incident alert is raised (3 incidents or more) the
    history score is below 50 and the factors hold "Historique de paiement"
    as very negative. *)
Theorem alertes_et_facteurs (str_float : Q -> string) (p : ProfilClient) :
  let r := calculer_score_risque p in
  let facteurs := snd (Explication.expliquer str_float p) in
  (0.50 < ratio_endettement r ->
   score_endettement r < 40 /\
   exists f : Explication.Facteur,
     In f facteurs /\
     Explication.facteur f = "Ratio d'endettement"%string /\
     Explication.impact f = "très négatif"%string /\
     Explication.score f = score_endettement r) /\
  ((3 <= incidents_paiement_12m p)%Z ->
   score_historique r < 50 /\
   exists f : Explication.Facteur,
     In f facteurs /\
     Explication.facteur f = "Historique de paiement"%string /\
     Explication.impact f = "très négatif"%string /\
     Explication.score f = score_historique r).
Proof.
  intros r facteurs. subst facteurs.
  assert (T : forall f : Explication.Facteur,
            In f (fst (Explication.notes str_float p (score_endettement r)
                         (score_historique r) (score_stabilite r) (score_coherence r)
                         (ratio_endettement r) (score_fraude r))) ->
            In f (snd (Explication.expliquer str_float p))).
  { intros f I. unfold Explication.expliquer, Explication.generer_explication. fold r.
    destruct (Explication.notes _ _ _ _ _ _ _ _) as [fs es]. cbn [fst snd] in *.
    apply (Permutation_in f (Permutation_sym (trier_permutation fs))). exact I. }
  split; intro H.
  - pose proof (ratio_critique_score p H) as S. fold r in S.
    split; [ exact S | ].
    destruct (notes_endettement_critique str_float p _ (score_historique r)
                (score_stabilite r) (score_coherence r) (ratio_endettement r)
                (score_fraude r) S) as (f & I & F).
    exists f. split; [ apply T; exact I | exact F ].
  - assert (S : score_historique r < 50).
    { subst r. destruct (calculer_score_risque_fields p) as (_ & _ & -> & _).
      apply incidents_score. exact H. }
    split; [ exact S | ].
    destruct (notes_historique_critique str_float p (score_endettement r) _
                (score_stabilite r) (score_coherence r) (ratio_endettement r)
                (score_fraude r) S) as (f & I & F).
    exists f. split; [ apply T; exact I | exact F ].
Qed.

Lemma alertes_et_facteurs_witness :
  score_endettement (calculer_score_risque profil_cinq_regles) < 40 /\
  score_historique (calculer_score_risque profil_cinq_regles) < 50.
Proof.
  destruct (alertes_et_facteurs (fun _ => EmptyString) profil_cinq_regles) as [A B].
  split.
  - apply A. vm_compute. reflexivity.
  - apply B. vm_compute. discriminate.
Defined.

(* ------------------------------------------------------------------ *)
(** ** Asking for more *)

Lemma Qdiv_le_compat (a b c : Q) : 0 < c -> a <= b -> a / c <= b / c.
Proof.
  intros C L. unfold Qdiv. apply Qmult_le_compat_r; [ exact L | ].
  apply Qlt_le_weak, Qinv_lt_0_compat, C.
Qed.

Lemma mensualite_endettement_mono (m1 m2 : Q) (d : Z) :
  m1 <= m2 -> mensualite_endettement m1 d <= mensualite_endettement m2 d.
Proof.
  intro L. unfold mensualite_endettement.
  destruct ((0 <? 0.15 / 12) && (0 <? d)%Z) eqn:E.
  - apply andb_true_iff in E. destruct E as [_ D]. apply Z.ltb_lt in D.
    unfold annuite.
    assert (P : 1 < (1 + 0.15 / 12) ^ d)
      by (apply Qpower_1_lt; [ vm_compute; reflexivity | exact D ]).
    set (q := (1 + 0.15 / 12) ^ d) in *.
    apply Qdiv_le_compat; [ lra | ].
    apply Qmult_le_compat_r; [ exact L | ].
    apply Qmult_le_0_compat; [ vm_compute; discriminate | lra ].
  - apply Qdiv_le_compat; [ | exact L ].
    change 0 with (inject_Z 0). rewrite <- Zlt_Qlt. lia.
Qed.

Lemma score_endettement_mono (revenu charges dettes m1 m2 : Q) (d : Z) :
  m1 <= m2 ->
  fst (calculer_score_endettement revenu charges dettes m2 d)
  <= fst (calculer_score_endettement revenu charges dettes m1 d).
Proof.
  intro L. unfold calculer_score_endettement.
  destruct (revenu <=? 0) eqn:R; cbn [fst]; [ lra | ].
  apply leb_false_iff in R.
  apply round_mono.
  assert (B : ratio_brut revenu charges dettes m1 d <= ratio_brut revenu charges dettes m2 d).
  { unfold ratio_brut. apply Qdiv_le_compat; [ exact R | ].
    pose proof (mensualite_endettement_mono m1 m2 d L). lra. }
  pose proof (bareme_endettement_pente _ _ B). lra.
Qed.

Lemma coherence_etat_mono (p1 p2 : ProfilClient) :
  ratio_seuil p1 <= ratio_seuil p2 -> ratio_revenu p1 <= ratio_revenu p2 ->
  duree_pret_mois p1 = duree_pret_mois p2 -> age p1 = age p2 ->
  fst (coherence_etat p2) <= fst (coherence_etat p1).
Proof.
  intros A B D G.
  unfold coherence_etat, coherence_age, coherence_duree, coherence_revenu, coherence_seuil,
    age_fin_pret.
  rewrite <- D, <- G.
  set (a1 := ratio_seuil p1) in *. set (a2 := ratio_seuil p2) in *.
  set (b1 := ratio_revenu p1) in *. set (b2 := ratio_revenu p2) in *.
  destruct (2.0 <? a1) eqn:E1; py_bool E1;
    destruct (2.0 <? a2) eqn:E2; py_bool E2; try lra;
    destruct (1.0 <? a1) eqn:E3; py_bool E3; try lra;
    destruct (1.0 <? a2) eqn:E4; py_bool E4; try lra;
    destruct (60 <? b1) eqn:F1; py_bool F1;
    destruct (60 <? b2) eqn:F2; py_bool F2; try lra;
    destruct (48 <? b1) eqn:F3; py_bool F3; try lra;
    destruct (48 <? b2) eqn:F4; py_bool F4; try lra;
    repeat py_case; cbn [fst]; lra.
Qed.

Lemma fraude_etat_mono (p1 p2 : ProfilClient) (sc1 sc2 : Q) :
  profession p1 = profession p2 -> revenu_mensuel p1 = revenu_mensuel p2 ->
  charges_mensuelles p1 = charges_mensuelles p2 ->
  incidents_paiement_12m p1 = incidents_paiement_12m p2 ->
  montant_demande p1 <= montant_demande p2 -> sc2 <= sc1 ->
  fst (fraude_etat p1 sc1) <= fst (fraude_etat p2 sc2).
Proof.
  intros Pr Re Ch In M S.
  fraude_unfold. unfold revenu_suspect. rewrite <- Pr, <- Re, <- Ch, <- In.
  destruct (0 <? revenu_mensuel p1) eqn:R.
  - apply ltb_iff in R.
    pose proof (Qdiv_le_compat _ _ _ R M) as D.
    set (d1 := montant_demande p1 / revenu_mensuel p1) in *.
    set (d2 := montant_demande p2 / revenu_mensuel p1) in *.
    set (m1 := montant_demande p1) in *. set (m2 := montant_demande p2) in *.
    destruct (sc1 <=? 20) eqn:E1; py_bool E1;
      destruct (sc2 <=? 20) eqn:E2; py_bool E2; try lra;
      destruct (sc1 <=? 50) eqn:E3; py_bool E3; try lra;
      destruct (sc2 <=? 50) eqn:E4; py_bool E4; try lra;
      destruct (100 <? d1) eqn:F1; py_bool F1;
      destruct (100 <? d2) eqn:F2; py_bool F2; try lra;
      destruct (60 <? d1) eqn:F3; py_bool F3; try lra;
      destruct (60 <? d2) eqn:F4; py_bool F4; try lra;
      destruct (10000000 <? m1) eqn:G1; py_bool G1;
      destruct (10000000 <? m2) eqn:G2; py_bool G2; try lra;
      rewrite ?andb_true_r, ?andb_false_r;
      repeat py_case; cbn [fst]; lra.
  - set (m1 := montant_demande p1) in *. set (m2 := montant_demande p2) in *.
    destruct (sc1 <=? 20) eqn:E1; py_bool E1;
      destruct (sc2 <=? 20) eqn:E2; py_bool E2; try lra;
      destruct (sc1 <=? 50) eqn:E3; py_bool E3; try lra;
      destruct (sc2 <=? 50) eqn:E4; py_bool E4; try lra;
      destruct (10000000 <? m1) eqn:G1; py_bool G1;
      destruct (10000000 <? m2) eqn:G2; py_bool G2; try lra;
      rewrite ?andb_true_r, ?andb_false_r;
      repeat py_case; cbn [fst]; lra.
Qed.

(** X25.  Asking for more never helps: between two profiles that differ by
    the requested amount only, the larger request has a debt score, a
    coherence score and a global score (unrounded and reported) that are no
    higher, and a fraud score that is no lower. *)
Theorem montant_croissant (p1 p2 : ProfilClient) :
  type_client p1 = type_client p2 -> profession p1 = profession p2 ->
  revenu_mensuel p1 = revenu_mensuel p2 ->
  charges_mensuelles p1 = charges_mensuelles p2 ->
  dettes_existantes p1 = dettes_existantes p2 ->
  anciennete_emploi p1 = anciennete_emploi p2 ->
  incidents_paiement_12m p1 = incidents_paiement_12m p2 ->
  duree_pret_mois p1 = duree_pret_mois p2 -> age p1 = age p2 ->
  montant_demande p1 <= montant_demande p2 ->
  let r1 := calculer_score_risque p1 in
  let r2 := calculer_score_risque p2 in
  score_endettement r2 <= score_endettement r1 /\
  score_coherence r2 <= score_coherence r1 /\
  score_pondere p2 <= score_pondere p1 /\
  score_global r2 <= score_global r1 /\
  score_fraude r1 <= score_fraude r2.
Proof.
  intros Ty Pr Re Ch De An In Du Ag M r1 r2. subst r1 r2.
  assert (SE : score_endettement (calculer_score_risque p2)
               <= score_endettement (calculer_score_risque p1)).
  { destruct (calculer_score_risque_fields p1) as (-> & _).
    destruct (calculer_score_risque_fields p2) as (-> & _).
    rewrite <- Re, <- Ch, <- De, <- Du. apply score_endettement_mono. exact M. }
  assert (SC : fst (calculer_score_coherence p2) <= fst (calculer_score_coherence p1)).
  { assert (E : fst (coherence_etat p2) <= fst (coherence_etat p1)).
    { apply coherence_etat_mono; try assumption.
      - assert (S : seuil_profil p1 = seuil_profil p2)
          by (unfold seuil_profil; rewrite Ty, Pr; reflexivity).
        unfold ratio_seuil. rewrite <- S.
        destruct (0 <? seuil_profil p1)%Z eqn:P; [ | lra ].
        apply Qdiv_le_compat; [ | exact M ].
        change 0 with (inject_Z 0). rewrite <- Zlt_Qlt. lia.
      - unfold ratio_revenu. rewrite <- Re. apply Qdiv_le_compat; [ | exact M ].
        destruct (max_spec (revenu_mensuel p1) 1) as [[? ->] | [? ->]]; lra. }
    unfold calculer_score_coherence.
    destruct (coherence_etat p1) as [s1 a1]. destruct (coherence_etat p2) as [s2 a2].
    cbn [fst] in *. apply round_mono, max_mono_r. exact E. }
  assert (SF : fst (calculer_score_fraude p1 (fst (calculer_score_coherence p1)))
               <= fst (calculer_score_fraude p2 (fst (calculer_score_coherence p2)))).
  { pose proof (fraude_etat_mono p1 p2 _ _ Pr Re Ch In M SC) as E.
    unfold calculer_score_fraude.
    destruct (fraude_etat p1 _) as [s1 a1]. destruct (fraude_etat p2 _) as [s2 a2].
    cbn [fst] in *. apply round_mono, min_mono_r. exact E. }
  assert (SP : score_pondere p2 <= score_pondere p1).
  { unfold score_pondere. rewrite !somme_ponderee_eq.
    destruct (calculer_score_risque_fields p1) as (_ & _ & H1 & S1 & C1 & _).
    destruct (calculer_score_risque_fields p2) as (_ & _ & H2 & S2 & C2 & _).
    rewrite H1, S1, C1, H2, S2, C2, <- In, <- An, <- Ag. lra. }
  split; [ exact SE | split; [ | split; [ exact SP | split ] ] ].
  - destruct (calculer_score_risque_fields p1) as (_ & _ & _ & _ & -> & _).
    destruct (calculer_score_risque_fields p2) as (_ & _ & _ & _ & -> & _). exact SC.
  - destruct (calculer_score_risque_fields p1) as (_ & _ & _ & _ & _ & _ & -> & _).
    destruct (calculer_score_risque_fields p2) as (_ & _ & _ & _ & _ & _ & -> & _).
    apply round_mono. exact SP.
  - destruct (calculer_score_risque_fields p1) as (_ & _ & _ & _ & _ & -> & _).
    destruct (calculer_score_risque_fields p2) as (_ & _ & _ & _ & _ & -> & _). exact SF.
Qed.

Lemma montant_croissant_witness :
  score_endettement (calculer_score_risque profil_reference_plus)
  <= score_endettement (calculer_score_risque profil_reference) /\
  score_coherence (calculer_score_risque profil_reference_plus)
  <= score_coherence (calculer_score_risque profil_reference) /\
  score_pondere profil_reference_plus <= score_pondere profil_reference /\
  score_global (calculer_score_risque profil_reference_plus)
  <= score_global (calculer_score_risque profil_reference) /\
  score_fraude (calculer_score_risque profil_reference)
  <= score_fraude (calculer_score_risque profil_reference_plus).
Proof.
  apply (montant_croissant profil_reference profil_reference_plus);
    try reflexivity.
  vm_compute. discriminate.
Defined.
